(** * The /ask streaming handlers of src/main.py and src/example_wrapper.py

    A shallow embedding of the two async generators [ask.generate] and of
    the request model [Question], followed by the properties of the
    streaming request lifecycle.

    Scope of the model.  A run is the execution of the generator when the
    transport pulls it until it is exhausted or raises.  The upstream
    sequence is finite: a list of chunks followed either by a normal end or
    by a raised exception.  Every effect the generator performs (a call on
    the run tree, the call that opens the upstream, a chunk received, a
    frame yielded, a line printed) is appended to one chronological list. *)

From Stdlib Require Import String Ascii List ZArith Bool Lia.
Import ListNotations.

Local Open Scope string_scope.
Local Open Scope list_scope.
Local Open Scope Z_scope.

(** ** Python values *)

(** A raised Python exception: [is_Exception] tells whether it is an
    instance of [Exception] (what [except Exception] catches) or only of
    [BaseException] (asyncio.CancelledError, KeyboardInterrupt, ...);
    [exn_str] is [str(e)]. *)
Record Exn : Type := mkExn { is_Exception : bool; exn_str : string }.

(** Truth value of a [str]: the empty string is false. *)
Definition truthy (s : string) : bool :=
  match s with EmptyString => false | String _ _ => true end.

Definition LF : string := String (ascii_of_nat 10) EmptyString.

(** ** Data model *)

(** src/main.py lines 15-18: one required attribute of type [str]. *)
Record Question : Type := mkQuestion { question : string }.

(** src/main.py lines 21-29, the one setting the handler reads. *)
Record Settings : Type := mkSettings { VERTEX_AI_MODEL : string }.

(** Modelled from the spec: the chunk type of the upstream client library is
    not declared in the repository; section 6 gives it as
    [{ text, usage?: { input_tokens: int, output_tokens: int } }].  The
    field names are the ones the handler reads (lines 116-120); [text] may
    be [None]. *)
Record UsageMetadata : Type := mkUsage
  { prompt_token_count : Z; candidates_token_count : Z }.

Record Chunk : Type := mkChunk
  { text : option string; usage_metadata : option UsageMetadata }.

(** The upstream lazy sequence: the chunks it yields, then how it ends
    ([None]: StopAsyncIteration, [Some e]: it raises [e]).  A failure of the
    call that opens the sequence is the case of no chunk. *)
Record Stream (C : Type) : Type := mkStream
  { chunks : list C; failure : option Exn }.
Arguments mkStream {C} _ _.
Arguments chunks {C} _.
Arguments failure {C} _.

(** [generate_content_stream(model=..., contents=...)]. *)
Definition Client : Type := string -> string -> Stream Chunk.

(** ** Outbound events and their frames *)

Inductive OutboundEvent : Type :=
| Token (fragment : string)   (* line 123: yield f"data: {text}\n\n" *)
| Done                        (* line 125 *)
| Error.                      (* line 144 *)

Definition frame (payload : string) : string :=
  ("data: " ++ payload ++ LF ++ LF)%string.

Definition render (ev : OutboundEvent) : string :=
  match ev with
  | Token fragment => frame fragment
  | Done => frame "[DONE]"
  | Error => frame "[ERROR]"
  end.

Definition terminal (ev : OutboundEvent) : bool :=
  match ev with Token _ => false | Done | Error => true end.

Definition is_done (ev : OutboundEvent) : bool :=
  match ev with Done => true | _ => false end.

Definition is_error (ev : OutboundEvent) : bool :=
  match ev with Error => true | _ => false end.

Definition is_token (ev : OutboundEvent) : bool :=
  match ev with Token _ => true | _ => false end.

(** The body of the response: the frames one after the other. *)
Definition sse_body (evs : list OutboundEvent) : string :=
  String.concat "" (map render evs).

(** ** The trace recorder *)

(** The calls the handler makes on the run tree. *)
Inductive TraceCall : Type :=
| RunTree_init (prompt model : string)                       (* lines 72-97 *)
| rt_post                                                    (* line 98 *)
| rt_add_event (name : string)                               (* line 114 *)
| rt_end_outputs (output : string)
                 (input_tokens output_tokens total_tokens : Z) (* lines 127-136 *)
| rt_patch                                                   (* lines 138, 143 *)
| rt_end_error (error : string).                             (* line 142 *)

(** A recorder answers each call, given the calls made before it, with
    [None] (the call returns) or [Some e] (the call raises [e]). *)
Definition Recorder : Type := list TraceCall -> TraceCall -> option Exn.

(** No call on the recorder raises. *)
Definition reliable (R : Recorder) : Prop := forall log c, R log c = None.

Definition quiet : Recorder := fun _ _ => None.

(** ** Effects, state and the generator monad *)

Inductive Effect : Type :=
| ETrace (c : TraceCall)
| EOpen (model contents : string)
| EChunk (c : Chunk)
| EYield (ev : OutboundEvent)
| EPrint (s : string).

(** The generator's frame: its local variables (lines 101-104) and the
    effects performed so far, oldest first. *)
Record State : Type := mkState
  { full_content : string;
    input_tokens : Z;
    output_tokens : Z;
    first_token : option Chunk;
    effects : list Effect }.

Inductive Result (A : Type) : Type :=
| Ok (a : A)
| Raise (e : Exn).
Arguments Ok {A} _.
Arguments Raise {A} _.

Definition M (S A : Type) : Type := S -> Result A * S.

Definition ret {S A} (a : A) : M S A := fun s => (Ok a, s).

Definition bind {S A B} (m : M S A) (k : A -> M S B) : M S B :=
  fun s => match m s with
           | (Ok a, s') => k a s'
           | (Raise e, s') => (Raise e, s')
           end.

Definition raise {S A} (e : Exn) : M S A := fun s => (Raise e, s).

Definition gets {S A} (f : S -> A) : M S A := fun s => (Ok (f s), s).

Definition modify {S} (f : S -> S) : M S unit := fun s => (Ok tt, f s).

(** [try: body  except Exception as e: handler e]. *)
Definition try_except {S} (body : M S unit) (handler : Exn -> M S unit)
  : M S unit :=
  fun s => match body s with
           | (Ok a, s') => (Ok a, s')
           | (Raise e, s') =>
               if is_Exception e then handler e s' else (Raise e, s')
           end.

Notation "x <- m ;; k" := (bind m (fun x => k))
  (at level 61, m at next level, right associativity).
Notation "m ;; k" := (bind m (fun _ => k))
  (at level 61, right associativity).

(** [async for chunk in stream: body chunk]; [note] records the chunk
    handed to the loop. *)
Fixpoint async_for {S C} (note : C -> M S unit) (cs : list C)
  (fin : option Exn) (body : C -> M S unit) : M S unit :=
  match cs with
  | [] => match fin with
          | None => ret tt
          | Some e => raise e
          end
  | c :: cs' => note c ;; body c ;; async_for note cs' fin body
  end.

(** ** Observers of an effect list *)

Definition trace_calls (es : list Effect) : list TraceCall :=
  flat_map (fun e => match e with ETrace c => [c] | _ => [] end) es.

Definition events (es : list Effect) : list OutboundEvent :=
  flat_map (fun e => match e with EYield ev => [ev] | _ => [] end) es.

Definition received (es : list Effect) : list Chunk :=
  flat_map (fun e => match e with EChunk c => [c] | _ => [] end) es.

Definition opened (es : list Effect) : list (string * string) :=
  flat_map (fun e => match e with EOpen m c => [(m, c)] | _ => [] end) es.

Definition printed (es : list Effect) : list string :=
  flat_map (fun e => match e with EPrint s => [s] | _ => [] end) es.

(** ** src/main.py: [ask.generate] *)

Definition log (e : Effect) : M State unit :=
  modify (fun s => mkState (full_content s) (input_tokens s)
                           (output_tokens s) (first_token s)
                           (effects s ++ [e])).

Definition yield (ev : OutboundEvent) : M State unit := log (EYield ev).

Definition print (s : string) : M State unit := log (EPrint s).

Definition set_full_content (v : string) : M State unit :=
  modify (fun s => mkState v (input_tokens s) (output_tokens s)
                           (first_token s) (effects s)).

Definition set_input_tokens (v : Z) : M State unit :=
  modify (fun s => mkState (full_content s) v (output_tokens s)
                           (first_token s) (effects s)).

Definition set_output_tokens (v : Z) : M State unit :=
  modify (fun s => mkState (full_content s) (input_tokens s) v
                           (first_token s) (effects s)).

Definition set_first_token (v : option Chunk) : M State unit :=
  modify (fun s => mkState (full_content s) (input_tokens s)
                           (output_tokens s) v (effects s)).

(** The value of the local [text] at line 120. *)
Definition fragment (chunk : Chunk) : string :=
  match text chunk with
  | Some t => if truthy t then t else ""
  | None => ""
  end.

Section Main.

Variable settings : Settings.
Variable R : Recorder.
Variable genai_client : Client.

(** A call on the run tree: noted, then it returns or raises as the
    recorder decides. *)
Definition rt (c : TraceCall) : M State unit :=
  past <- gets (fun s => trace_calls (effects s)) ;;
  log (ETrace c) ;;
  match R past c with
  | None => ret tt
  | Some e => raise e
  end.

(** Lines 112-123, the body of the [async for]. *)
Definition loop_body (chunk : Chunk) : M State unit :=
  ft <- gets first_token ;;
  match ft with
  | None => set_first_token (Some chunk) ;; rt (rt_add_event "new_token")
  | Some _ => ret tt
  end ;;
  match usage_metadata chunk with
  | Some u =>
      set_input_tokens (prompt_token_count u) ;;
      set_output_tokens (candidates_token_count u)
  | None => ret tt
  end ;;
  fc <- gets full_content ;;
  set_full_content (fc ++ fragment chunk)%string ;;
  yield (Token (fragment chunk)).

(** Lines 106-138, the body of the [try]. *)
Definition try_body (payload : Question) : M State unit :=
  log (EOpen (VERTEX_AI_MODEL settings) (question payload)) ;;
  let stream := genai_client (VERTEX_AI_MODEL settings) (question payload) in
  async_for (fun c => log (EChunk c)) (chunks stream) (failure stream)
            loop_body ;;
  yield Done ;;
  fc <- gets full_content ;;
  i <- gets input_tokens ;;
  o <- gets output_tokens ;;
  rt (rt_end_outputs fc i o (i + o)) ;;
  rt rt_patch.

(** Lines 140-144. *)
Definition except_body (e : Exn) : M State unit :=
  print (exn_str e) ;;
  rt (rt_end_error (exn_str e)) ;;
  rt rt_patch ;;
  yield Error.

(** Lines 70-144. *)
Definition generate (payload : Question) : M State unit :=
  rt (RunTree_init (question payload) (VERTEX_AI_MODEL settings)) ;;
  rt rt_post ;;
  set_full_content "" ;;
  set_input_tokens 0 ;;
  set_output_tokens 0 ;;
  set_first_token None ;;
  try_except (try_body payload) except_body.

End Main.

Definition init_state : State := mkState "" 0 0 None [].

(** One invocation of the handler of src/main.py. *)
Definition run (settings : Settings) (R : Recorder) (genai_client : Client)
  (payload : Question) : Result unit * State :=
  generate settings R genai_client payload init_state.

(** Request parsing for [async def ask(payload: Question)]: the body's
    [question] attribute is absent or a text; the attribute is required and
    has no other constraint. *)
Definition Question_validate (attr : option string) : option Question :=
  match attr with
  | None => None
  | Some q => Some (mkQuestion q)
  end.

Inductive Response : Type :=
| ValidationError
| StreamingResponse (r : Result unit * State).

(** Lines 66-154. *)
Definition ask (settings : Settings) (R : Recorder) (genai_client : Client)
  (attr : option string) : Response :=
  match Question_validate attr with
  | None => ValidationError
  | Some payload => StreamingResponse (run settings R genai_client payload)
  end.

(** ** src/example_wrapper.py: [ask.generate] *)

Module Wrapper.

(** A chunk of [model.astream]: what [f"{chunk}"] renders, and the
    [usage_metadata] attribute when [hasattr] finds one. *)
Record LLMChunk : Type := mkLLMChunk
  { chunk_str : string; usage_attr : option string }.

Inductive WEffect : Type :=
| WOpen (input : string)
| WChunk (c : LLMChunk)
| WYield (ev : OutboundEvent)
| WPrint (s : string).

Definition WState : Type := list WEffect.

Definition wlog (e : WEffect) : M WState unit :=
  modify (fun s => s ++ [e]).

Definition wevents (es : WState) : list OutboundEvent :=
  flat_map (fun e => match e with WYield ev => [ev] | _ => [] end) es.

(** Lines 74-77. *)
Definition loop_body (chunk : LLMChunk) : M WState unit :=
  match usage_attr chunk with
  | Some u => wlog (WPrint ("Tokens: " ++ u)%string)
  | None => ret tt
  end ;;
  wlog (WYield (Token (chunk_str chunk))).

(** Lines 69-79: no [try], no run tree. *)
Definition generate (model : string -> Stream LLMChunk)
  (payload : Question) : M WState unit :=
  wlog (WOpen (question payload)) ;;
  let stream := model (question payload) in
  async_for (fun c => wlog (WChunk c)) (chunks stream) (failure stream)
            loop_body ;;
  wlog (WYield Done).

Definition run (model : string -> Stream LLMChunk) (payload : Question)
  : Result unit * WState :=
  generate model payload [].

End Wrapper.

(** ** Reference functions for the statements *)

(** The running totals after a list of chunks: each chunk that carries
    usage overwrites both. *)
Definition usage_after (cs : list Chunk) (io : Z * Z) : Z * Z :=
  fold_left (fun acc c => match usage_metadata c with
                          | Some u => (prompt_token_count u,
                                       candidates_token_count u)
                          | None => acc
                          end) cs io.

Definition text_of (cs : list Chunk) : string :=
  String.concat "" (map fragment cs).

Definition tokens_of (cs : list Chunk) : list OutboundEvent :=
  map (fun c => Token (fragment c)) cs.

Definition count_if {A} (p : A -> bool) (l : list A) : nat :=
  length (filter p l).

(** ** The loop, chunk by chunk *)

(** The state after lines 116-123 for one chunk. *)
Definition absorb (c : Chunk) (s : State) : State :=
  mkState (full_content s ++ fragment c)%string
          (match usage_metadata c with
           | Some u => prompt_token_count u
           | None => input_tokens s
           end)
          (match usage_metadata c with
           | Some u => candidates_token_count u
           | None => output_tokens s
           end)
          (first_token s)
          (effects s ++ [EYield (Token (fragment c))]).

Definition seen (c : Chunk) (s : State) : State :=
  mkState (full_content s) (input_tokens s) (output_tokens s)
          (first_token s) (effects s ++ [EChunk c]).

(** The state after lines 112-114 for the first chunk. *)
Definition marked (c : Chunk) (s : State) : State :=
  mkState (full_content s) (input_tokens s) (output_tokens s)
          (Some c) (effects s ++ [ETrace (rt_add_event "new_token")]).

Definition absorb_all (cs : list Chunk) (s : State) : State :=
  fold_left (fun s c => absorb c (seen c s)) cs s.

Definition chunk_effects (cs : list Chunk) : list Effect :=
  flat_map (fun c => [EChunk c; EYield (Token (fragment c))]) cs.

Definition end_of (fin : option Exn) : Result unit :=
  match fin with None => Ok tt | Some e => Raise e end.

Definition emit (es : list Effect) (s : State) : State :=
  mkState (full_content s) (input_tokens s) (output_tokens s)
          (first_token s) (effects s ++ es).

(** Lines 125-138. *)
Definition on_success (R : Recorder) : M State unit :=
  yield Done ;;
  fc <- gets full_content ;;
  i <- gets input_tokens ;;
  o <- gets output_tokens ;;
  rt R (rt_end_outputs fc i o (i + o)) ;;
  rt R rt_patch.

Definition end_call (s : State) : TraceCall :=
  rt_end_outputs (full_content s) (input_tokens s) (output_tokens s)
                 (input_tokens s + output_tokens s).

(** The state in which the loop ends when the marker call returned. *)
Definition streamed (cs : list Chunk) (s : State) : State :=
  match cs with
  | [] => s
  | c :: cs' => absorb_all cs' (absorb c (marked c (seen c s)))
  end.

(** The state when the [try] is entered. *)
Definition started (settings : Settings) (payload : Question) : State :=
  emit [ETrace (RunTree_init (question payload) (VERTEX_AI_MODEL settings));
        ETrace rt_post] init_state.

(** The state when the loop has consumed the whole upstream. *)
Definition consumed (settings : Settings) (genai_client : Client)
  (payload : Question) : State :=
  streamed (chunks (genai_client (VERTEX_AI_MODEL settings) (question payload)))
           (emit [EOpen (VERTEX_AI_MODEL settings) (question payload)]
                 (started settings payload)).

Definition wrapper_effects (cs : list Wrapper.LLMChunk)
  : list Wrapper.WEffect :=
  flat_map (fun c =>
              Wrapper.WChunk c ::
              match Wrapper.usage_attr c with
              | Some u => [Wrapper.WPrint ("Tokens: " ++ u)%string]
              | None => []
              end ++ [Wrapper.WYield (Token (Wrapper.chunk_str c))]) cs.

Definition wrapper_tokens (cs : list Wrapper.LLMChunk)
  : list OutboundEvent :=
  map (fun c => Token (Wrapper.chunk_str c)) cs.

(** ** Fixtures for the concrete runs *)

Definition demo_settings : Settings := mkSettings "gemini".

Definition fixed_stream (cs : list Chunk) (fin : option Exn) : Client :=
  fun _ _ => mkStream cs fin.

Definition plain (s : string) : Chunk := mkChunk (Some s) None.

Definition boom : Exn := mkExn true "boom".

(** What asyncio.CancelledError is to [except Exception]. *)
Definition cancelled : Exn := mkExn false "".

(** The recorder whose calls selected by [p] raise [e]. *)
Definition raising_at (p : TraceCall -> bool) (e : Exn) : Recorder :=
  fun _ c => if p c then Some e else None.

Definition is_post (c : TraceCall) : bool :=
  match c with rt_post => true | _ => false end.

Definition is_marker (c : TraceCall) : bool :=
  match c with
  | rt_add_event name => String.eqb name "new_token"
  | _ => false
  end.

Definition is_end_outputs (c : TraceCall) : bool :=
  match c with rt_end_outputs _ _ _ _ => true | _ => false end.

Definition is_end_error (c : TraceCall) : bool :=
  match c with rt_end_error _ => true | _ => false end.

(** ** Concrete runs *)

Definition ping : Question := mkQuestion "ping".

Definition ping_stream : Client :=
  fixed_stream [plain "P"; plain "i"; plain "ng"] None.

(** The upstream yields one chunk and raises. *)
Definition partial_stream (e : Exn) : Client :=
  fixed_stream [plain "partial"] (Some e).

Definition llm_stream (cs : list string) (fin : option Exn)
  : string -> Stream Wrapper.LLMChunk :=
  fun _ => mkStream (map (fun s => Wrapper.mkLLMChunk s None) cs) fin.

(** The upstream completes, [rt.end(outputs=...)] raises. *)
Definition run_end_raises : Result unit * State :=
  run demo_settings (raising_at is_end_outputs boom) ping_stream ping.

(** The upstream completes, [rt.post()] raises. *)
Definition run_post_raises : Result unit * State :=
  run demo_settings (raising_at is_post boom) ping_stream ping.

(** The upstream raises, then [rt.end(error=...)] raises. *)
Definition run_end_error_raises : Result unit * State :=
  run demo_settings (raising_at is_end_error boom) (partial_stream boom) ping.

(** The upstream raises what [except Exception] does not catch. *)
Definition run_cancelled : Result unit * State :=
  run demo_settings quiet (partial_stream cancelled) ping.

(** The handler of src/example_wrapper.py, the upstream raises. *)
Definition wrapper_run_raises : Result unit * Wrapper.WState :=
  Wrapper.run (llm_stream ["partial"] (Some boom)) ping.

(** ** Observers used by the statements *)

(** The number of first-token marker calls made on the run tree. *)
Definition marker_count (es : list Effect) : nat :=
  count_if is_marker (trace_calls es).

(** The effect that comes right after the first chunk received. *)
Fixpoint after_first_chunk (es : list Effect) : option Effect :=
  match es with
  | [] => None
  | EChunk _ :: rest => hd_error rest
  | _ :: rest => after_first_chunk rest
  end.

(** Lines 72-98 return: neither [RunTree(...)] nor [rt.post()] raises. *)
Definition trace_started (settings : Settings) (R : Recorder)
  (payload : Question) : bool :=
  match R [] (RunTree_init (question payload) (VERTEX_AI_MODEL settings)),
        R [RunTree_init (question payload) (VERTEX_AI_MODEL settings)] rt_post
  with
  | None, None => true
  | _, _ => false
  end.

(** The bytes of a stream of token events, given the fragments. *)
Definition encode (fragments : list string) : string :=
  sse_body (map Token fragments).

(** A chunk with usage counts and no text. *)
Definition usage_chunk (i o : Z) : Chunk := mkChunk None (Some (mkUsage i o)).

(** The upstream completes; the second and the fourth chunk carry usage. *)
Definition usage_stream : Client :=
  fixed_stream [plain "P"; usage_chunk 5 1; plain "i"; usage_chunk 5 3;
                plain "ng"] None.

(** The first chunk has no text; the marker call raises. *)
Definition run_marker_raises : Result unit * State :=
  run demo_settings (raising_at is_marker boom)
      (fixed_stream [mkChunk None None; plain "x"] None) ping.

(** The loop body on a first chunk when the marker call raises. *)
Definition body_marker_raises : Result unit * State :=
  loop_body (raising_at is_marker boom) (plain "a") init_state.

(** One chunk whose text holds a frame boundary, and the two chunks it
    cannot be told from. *)
Definition joined_fragments : list string :=
  [("a" ++ LF ++ LF ++ "data: b")%string].

Definition split_fragments : list string := ["a"; "b"].

(** ** The application around the handler *)

(** [app.state] as the handler of src/main.py finds it: the attribute
    [genai_client] is missing until [lifespan] stores it (lines 39-47). *)
Record AppState : Type := mkAppState { state_genai_client : option Client }.

(** A fresh application: no attribute stored yet. *)
Definition fresh_app : AppState := mkAppState None.

(** What reading a missing attribute of [app.state] raises. *)
Definition attribute_error : Exn :=
  mkExn true "'State' object has no attribute 'genai_client'".


(** Lines 70-144 with line 99 read from the application state: the lookup
    of [app.state.genai_client] comes after [rt.post()] and before the
    [try]. *)
Definition generate_app (settings : Settings) (R : Recorder)
  (app_state : AppState) (payload : Question) : M State unit :=
  rt R (RunTree_init (question payload) (VERTEX_AI_MODEL settings)) ;;
  rt R rt_post ;;
  genai_client <- match state_genai_client app_state with
                  | Some client => ret client
                  | None => raise attribute_error
                  end ;;
  set_full_content "" ;;
  set_input_tokens 0 ;;
  set_output_tokens 0 ;;
  set_first_token None ;;
  try_except (try_body settings R genai_client payload) (except_body R).

Definition run_app (settings : Settings) (R : Recorder)
  (app_state : AppState) (payload : Question) : Result unit * State :=
  generate_app settings R app_state payload init_state.

(** ** Further observers *)

(** The fragments carried by the token events of a list of events. *)
Definition payloads (evs : list OutboundEvent) : list string :=
  flat_map (fun ev => match ev with Token f => [f] | _ => [] end) evs.

(** The texts passed to [rt.end(error=...)]. *)
Definition error_texts (calls : list TraceCall) : list string :=
  flat_map (fun c => match c with rt_end_error s => [s] | _ => [] end) calls.

Definition is_patch (c : TraceCall) : bool :=
  match c with rt_patch => true | _ => false end.

(** A call that ends the run tree, as a success or as an error. *)
Definition is_end (c : TraceCall) : bool :=
  is_end_outputs c || is_end_error c.

(** The lines printed by the handler of src/example_wrapper.py. *)
Definition wprinted (es : Wrapper.WState) : list string :=
  flat_map (fun e => match e with Wrapper.WPrint s => [s] | _ => [] end) es.

Lemma append_nil_r (a : string) : (a ++ "")%string = a.
Proof. induction a as [|x a IH]; cbn; [reflexivity | now rewrite IH]. Qed.

Lemma concat_cons (x : string) (l : list string) :
  String.concat "" (x :: l) = (x ++ String.concat "" l)%string.
Proof.
  destruct l as [|y l]; cbn; [now rewrite append_nil_r | reflexivity].
Qed.

Lemma append_assoc (a b c : string) :
  ((a ++ b) ++ c)%string = (a ++ (b ++ c))%string.
Proof. induction a as [|x a IH]; cbn; [reflexivity | now rewrite IH]. Qed.

Lemma trace_calls_app (a b : list Effect) :
  trace_calls (a ++ b) = trace_calls a ++ trace_calls b.
Proof. apply flat_map_app. Qed.

Lemma events_app (a b : list Effect) :
  events (a ++ b) = events a ++ events b.
Proof. apply flat_map_app. Qed.

Lemma received_app (a b : list Effect) :
  received (a ++ b) = received a ++ received b.
Proof. apply flat_map_app. Qed.

Lemma opened_app (a b : list Effect) :
  opened (a ++ b) = opened a ++ opened b.
Proof. apply flat_map_app. Qed.

Lemma printed_app (a b : list Effect) :
  printed (a ++ b) = printed a ++ printed b.
Proof. apply flat_map_app. Qed.

Lemma printed_chunk_effects cs : printed (chunk_effects cs) = [].
Proof. induction cs as [|c cs IH]; cbn; [reflexivity | exact IH]. Qed.

Lemma trace_calls_chunk_effects cs : trace_calls (chunk_effects cs) = [].
Proof. induction cs as [|c cs IH]; cbn; [reflexivity | exact IH]. Qed.

Lemma events_chunk_effects cs : events (chunk_effects cs) = tokens_of cs.
Proof.
  induction cs as [|c cs IH]; cbn; [reflexivity|].
  f_equal. exact IH.
Qed.

Lemma received_chunk_effects cs : received (chunk_effects cs) = cs.
Proof.
  induction cs as [|c cs IH]; cbn; [reflexivity|].
  f_equal. exact IH.
Qed.

Lemma opened_chunk_effects cs : opened (chunk_effects cs) = [].
Proof. induction cs as [|c cs IH]; cbn; [reflexivity | exact IH]. Qed.

Lemma absorb_all_full_content cs : forall s,
  full_content (absorb_all cs s) = (full_content s ++ text_of cs)%string.
Proof.
  induction cs as [|c cs IH]; intro s.
  - cbn. now rewrite append_nil_r.
  - unfold absorb_all in *. cbn [fold_left]. rewrite IH. cbn [absorb seen full_content].
    unfold text_of. cbn [map]. rewrite concat_cons. apply append_assoc.
Qed.

Lemma absorb_all_usage cs : forall s,
  (input_tokens (absorb_all cs s), output_tokens (absorb_all cs s))
  = usage_after cs (input_tokens s, output_tokens s).
Proof.
  induction cs as [|c cs IH]; intro s; [reflexivity|].
  unfold absorb_all, usage_after in *. cbn [fold_left]. rewrite IH.
  cbn [absorb seen input_tokens output_tokens].
  now destruct (usage_metadata c).
Qed.

Lemma absorb_all_first_token cs : forall s,
  first_token (absorb_all cs s) = first_token s.
Proof.
  induction cs as [|c cs IH]; intro s; [reflexivity|].
  unfold absorb_all in *. cbn [fold_left]. now rewrite IH.
Qed.

Lemma absorb_all_effects cs : forall s,
  effects (absorb_all cs s) = effects s ++ chunk_effects cs.
Proof.
  induction cs as [|c cs IH]; intro s.
  - cbn. now rewrite app_nil_r.
  - unfold absorb_all in *. cbn [fold_left]. rewrite IH.
    cbn [absorb seen effects chunk_effects flat_map].
    now rewrite <- !app_assoc.
Qed.

Section Loop.

Variable R : Recorder.

Lemma rt_eq c s :
  rt R c s =
  (match R (trace_calls (effects s)) c with
   | None => Ok tt
   | Some e => Raise e
   end,
   mkState (full_content s) (input_tokens s) (output_tokens s)
           (first_token s) (effects s ++ [ETrace c])).
Proof.
  unfold rt, bind, gets, log, modify. cbn.
  now destruct (R (trace_calls (effects s)) c).
Qed.

(** A chunk after the first: no call on the run tree. *)
Lemma loop_body_marked c s ft :
  first_token s = Some ft ->
  loop_body R c s = (Ok tt, absorb c s).
Proof.
  intro H. unfold loop_body, bind, gets. rewrite H. cbn.
  unfold absorb. now destruct (usage_metadata c).
Qed.

(** The first chunk: the marker call decides. *)
Lemma loop_body_first c s :
  first_token s = None ->
  loop_body R c s =
  match R (trace_calls (effects s)) (rt_add_event "new_token") with
  | Some e => (Raise e, marked c s)
  | None => (Ok tt, absorb c (marked c s))
  end.
Proof.
  intro H. unfold loop_body, gets, bind. rewrite H.
  unfold set_first_token, modify. rewrite rt_eq.
  cbn [effects full_content input_tokens output_tokens first_token].
  destruct (R (trace_calls (effects s)) (rt_add_event "new_token")).
  - reflexivity.
  - unfold absorb, marked. now destruct (usage_metadata c).
Qed.

Lemma loop_marked cs fin : forall s ft,
  first_token s = Some ft ->
  async_for (fun c => log (EChunk c)) cs fin (loop_body R) s
  = (end_of fin, absorb_all cs s).
Proof.
  induction cs as [|c cs IH]; intros s ft H.
  - now destruct fin.
  - cbn [async_for]. unfold bind at 1. cbn [log modify].
    change (mkState (full_content s) (input_tokens s) (output_tokens s)
              (first_token s) (effects s ++ [EChunk c])) with (seen c s).
    unfold bind at 1. rewrite (loop_body_marked c (seen c s) ft H).
    rewrite (IH _ ft); [reflexivity | exact H].
Qed.

(** The whole loop, entered with [first_token] unset. *)
Lemma loop_unmarked cs fin s :
  first_token s = None ->
  async_for (fun c => log (EChunk c)) cs fin (loop_body R) s
  = match cs with
    | [] => (end_of fin, s)
    | c :: cs' =>
        match R (trace_calls (effects s)) (rt_add_event "new_token") with
        | Some e => (Raise e, marked c (seen c s))
        | None =>
            (end_of fin, absorb_all cs' (absorb c (marked c (seen c s))))
        end
    end.
Proof.
  intro H. destruct cs as [|c cs].
  - now destruct fin.
  - cbn [async_for]. unfold bind at 1. cbn [log modify].
    change (mkState (full_content s) (input_tokens s) (output_tokens s)
              (first_token s) (effects s ++ [EChunk c])) with (seen c s).
    unfold bind at 1. rewrite (loop_body_first c (seen c s) H).
    replace (trace_calls (effects (seen c s)))
      with (trace_calls (effects s))
      by (cbn; rewrite trace_calls_app; cbn; now rewrite app_nil_r).
    destruct (R (trace_calls (effects s)) (rt_add_event "new_token")).
    + reflexivity.
    + now rewrite (loop_marked cs fin _ c).
Qed.

End Loop.

(** ** The blocks of [generate], evaluated *)

Section Blocks.

Variable settings : Settings.
Variable R : Recorder.
Variable genai_client : Client.

Lemma on_success_eq s :
  on_success R s =
  match R (trace_calls (effects s)) (end_call s) with
  | Some e => (Raise e, emit [EYield Done; ETrace (end_call s)] s)
  | None =>
      (end_of (R (trace_calls (effects s) ++ [end_call s]) rt_patch),
       emit [EYield Done; ETrace (end_call s); ETrace rt_patch] s)
  end.
Proof.
  unfold on_success, gets, bind, yield, log, modify. rewrite rt_eq.
  cbn [effects full_content input_tokens output_tokens first_token].
  rewrite trace_calls_app. cbn [trace_calls flat_map app].
  rewrite app_nil_r. fold (end_call s).
  destruct (R (trace_calls (effects s)) (end_call s)).
  - unfold emit. now rewrite <- app_assoc.
  - rewrite rt_eq.
    cbn [effects full_content input_tokens output_tokens first_token].
    rewrite !trace_calls_app. cbn [trace_calls flat_map app].
    rewrite app_nil_r. unfold emit, end_of. rewrite <- !app_assoc. cbn [app].
    now destruct (R (trace_calls (effects s) ++ [end_call s]) rt_patch).
Qed.

Lemma except_body_eq e s :
  except_body R e s =
  match R (trace_calls (effects s)) (rt_end_error (exn_str e)) with
  | Some e' =>
      (Raise e',
       emit [EPrint (exn_str e); ETrace (rt_end_error (exn_str e))] s)
  | None =>
      match R (trace_calls (effects s) ++ [rt_end_error (exn_str e)])
              rt_patch with
      | Some e' =>
          (Raise e',
           emit [EPrint (exn_str e); ETrace (rt_end_error (exn_str e));
                 ETrace rt_patch] s)
      | None =>
          (Ok tt,
           emit [EPrint (exn_str e); ETrace (rt_end_error (exn_str e));
                 ETrace rt_patch; EYield Error] s)
      end
  end.
Proof.
  unfold except_body, bind, print, yield, log, modify. rewrite rt_eq.
  cbn [effects full_content input_tokens output_tokens first_token].
  rewrite trace_calls_app. cbn [trace_calls flat_map app].
  rewrite app_nil_r.
  destruct (R (trace_calls (effects s)) (rt_end_error (exn_str e))).
  - unfold emit. now rewrite <- app_assoc.
  - rewrite rt_eq.
    cbn [effects full_content input_tokens output_tokens first_token].
    rewrite !trace_calls_app. cbn [trace_calls flat_map app].
    rewrite app_nil_r. unfold emit. rewrite <- !app_assoc. cbn [app].
    now destruct (R (trace_calls (effects s) ++ [rt_end_error (exn_str e)])
                    rt_patch).
Qed.

Lemma try_body_eq payload s :
  first_token s = None ->
  try_body settings R genai_client payload s =
  let m := VERTEX_AI_MODEL settings in
  let q := question payload in
  let s0 := emit [EOpen m q] s in
  match chunks (genai_client m q),
        R (trace_calls (effects s)) (rt_add_event "new_token") with
  | c :: _, Some e => (Raise e, marked c (seen c s0))
  | cs, _ =>
      match failure (genai_client m q) with
      | Some e => (Raise e, streamed cs s0)
      | None => on_success R (streamed cs s0)
      end
  end.
Proof.
  intro H. cbv zeta. unfold try_body. unfold bind at 1. cbn [log modify].
  fold (emit [EOpen (VERTEX_AI_MODEL settings) (question payload)] s).
  set (s0 := emit _ s).
  assert (H0 : first_token s0 = None) by exact H.
  assert (Ht : trace_calls (effects s0) = trace_calls (effects s)).
  { subst s0. cbn. rewrite trace_calls_app. cbn. now rewrite app_nil_r. }
  unfold bind at 1. rewrite (loop_unmarked R _ _ s0 H0). rewrite Ht.
  destruct (chunks _) as [|c cs].
  - cbn [streamed]. now destruct (failure _).
  - destruct (R (trace_calls (effects s)) (rt_add_event "new_token")).
    + reflexivity.
    + cbn [streamed]. now destruct (failure _).
Qed.

End Blocks.

(** ** The state in which the loop ends *)

Lemma usage_after_cons c cs io :
  usage_after (c :: cs) io =
  usage_after cs (match usage_metadata c with
                  | Some u => (prompt_token_count u, candidates_token_count u)
                  | None => io
                  end).
Proof. reflexivity. Qed.

Lemma text_of_cons c cs :
  text_of (c :: cs) = (fragment c ++ text_of cs)%string.
Proof. unfold text_of. cbn [map]. apply concat_cons. Qed.

Lemma streamed_full_content cs s :
  full_content (streamed cs s) = (full_content s ++ text_of cs)%string.
Proof.
  destruct cs as [|c cs]; cbn [streamed].
  - cbn. now rewrite append_nil_r.
  - rewrite absorb_all_full_content, text_of_cons. cbn. apply append_assoc.
Qed.

Lemma streamed_usage cs s :
  (input_tokens (streamed cs s), output_tokens (streamed cs s))
  = usage_after cs (input_tokens s, output_tokens s).
Proof.
  destruct cs as [|c cs]; cbn [streamed]; [reflexivity|].
  rewrite absorb_all_usage, usage_after_cons. cbn.
  now destruct (usage_metadata c).
Qed.

Lemma streamed_effects cs s :
  effects (streamed cs s) =
  effects s ++
  match cs with
  | [] => []
  | c :: cs' =>
      EChunk c :: ETrace (rt_add_event "new_token")
        :: EYield (Token (fragment c)) :: chunk_effects cs'
  end.
Proof.
  destruct cs as [|c cs]; cbn [streamed].
  - now rewrite app_nil_r.
  - rewrite absorb_all_effects. cbn. now rewrite <- !app_assoc.
Qed.

Lemma streamed_events cs s :
  events (effects (streamed cs s)) = events (effects s) ++ tokens_of cs.
Proof.
  rewrite streamed_effects, events_app. f_equal.
  destruct cs as [|c cs]; [reflexivity|].
  cbn. f_equal. apply events_chunk_effects.
Qed.

Lemma streamed_trace_calls cs s :
  trace_calls (effects (streamed cs s)) =
  trace_calls (effects s) ++
  match cs with [] => [] | _ :: _ => [rt_add_event "new_token"] end.
Proof.
  rewrite streamed_effects, trace_calls_app. f_equal.
  destruct cs as [|c cs]; [reflexivity|].
  cbn. f_equal. apply trace_calls_chunk_effects.
Qed.

Lemma streamed_received cs s :
  received (effects (streamed cs s)) = received (effects s) ++ cs.
Proof.
  rewrite streamed_effects, received_app. f_equal.
  destruct cs as [|c cs]; [reflexivity|].
  cbn. f_equal. apply received_chunk_effects.
Qed.

Lemma streamed_opened cs s :
  opened (effects (streamed cs s)) = opened (effects s).
Proof.
  rewrite streamed_effects, opened_app.
  destruct cs as [|c cs]; cbn; [now rewrite app_nil_r|].
  now rewrite opened_chunk_effects, app_nil_r.
Qed.

Lemma streamed_printed cs s :
  printed (effects (streamed cs s)) = printed (effects s).
Proof.
  rewrite streamed_effects, printed_app.
  destruct cs as [|c cs]; cbn; [now rewrite app_nil_r|].
  now rewrite printed_chunk_effects, app_nil_r.
Qed.

(** ** One invocation, evaluated *)

Section Run.

Variable settings : Settings.
Variable R : Recorder.
Variable genai_client : Client.
Variable payload : Question.

Lemma run_eq :
  run settings R genai_client payload =
  match R [] (RunTree_init (question payload) (VERTEX_AI_MODEL settings)) with
  | Some e => (Raise e, emit [ETrace (RunTree_init (question payload) (VERTEX_AI_MODEL settings))] init_state)
  | None =>
      match R [RunTree_init (question payload) (VERTEX_AI_MODEL settings)] rt_post with
      | Some e => (Raise e, started settings payload)
      | None =>
          try_except (try_body settings R genai_client payload)
                     (except_body R) (started settings payload)
      end
  end.
Proof.
  unfold run, generate. unfold bind at 1. rewrite rt_eq.
  cbn [effects init_state trace_calls flat_map app].
  destruct (R [] (RunTree_init (question payload) (VERTEX_AI_MODEL settings))); [reflexivity|].
  unfold bind at 1. rewrite rt_eq.
  cbn [effects trace_calls flat_map app full_content input_tokens
       output_tokens first_token].
  destruct (R [RunTree_init (question payload) (VERTEX_AI_MODEL settings)] rt_post); reflexivity.
Qed.

Lemma run_reliable :
  reliable R ->
  run settings R genai_client payload =
  match failure (genai_client (VERTEX_AI_MODEL settings) (question payload)) with
  | None =>
      (Ok tt,
       emit [EYield Done;
             ETrace (end_call (consumed settings genai_client payload));
             ETrace rt_patch]
            (consumed settings genai_client payload))
  | Some e =>
      if is_Exception e
      then (Ok tt,
            emit [EPrint (exn_str e); ETrace (rt_end_error (exn_str e));
                  ETrace rt_patch; EYield Error]
                 (consumed settings genai_client payload))
      else (Raise e, consumed settings genai_client payload)
  end.
Proof.
  intro HR. rewrite run_eq, !HR. unfold try_except.
  rewrite try_body_eq by reflexivity. cbv zeta. rewrite HR.
  unfold consumed.
  set (st := genai_client _ _).
  destruct (chunks st) as [|c cs]; destruct (failure st) as [e|];
    try destruct (is_Exception e);
    rewrite ?except_body_eq, ?on_success_eq, ?HR; reflexivity.
Qed.

End Run.

(** ** The handler of src/example_wrapper.py, evaluated *)

Lemma wevents_app a b :
  Wrapper.wevents (a ++ b) = Wrapper.wevents a ++ Wrapper.wevents b.
Proof. apply flat_map_app. Qed.

Lemma wevents_wrapper_effects cs :
  Wrapper.wevents (wrapper_effects cs) = wrapper_tokens cs.
Proof.
  induction cs as [|c cs IH]; [reflexivity|].
  cbn. destruct (Wrapper.usage_attr c); cbn; f_equal; exact IH.
Qed.

Lemma wrapper_loop cs fin : forall s,
  async_for (fun c => Wrapper.wlog (Wrapper.WChunk c)) cs fin
            Wrapper.loop_body s
  = (end_of fin, s ++ wrapper_effects cs).
Proof.
  induction cs as [|c cs IH]; intro s.
  - cbn. rewrite app_nil_r. now destruct fin.
  - cbn [async_for]. unfold bind at 1. cbn [Wrapper.wlog modify].
    unfold bind at 1. unfold Wrapper.loop_body at 1.
    destruct (Wrapper.usage_attr c) as [u|] eqn:Eu;
      cbn; rewrite IH; cbn; rewrite Eu; cbn;
      now rewrite <- !app_assoc.
Qed.

Lemma wrapper_run_eq model payload :
  Wrapper.run model payload =
  let st := model (question payload) in
  match failure st with
  | None =>
      (Ok tt,
       Wrapper.WOpen (question payload) :: wrapper_effects (chunks st)
         ++ [Wrapper.WYield Done])
  | Some e =>
      (Raise e,
       Wrapper.WOpen (question payload) :: wrapper_effects (chunks st))
  end.
Proof.
  unfold Wrapper.run, Wrapper.generate. unfold bind at 1.
  cbn [Wrapper.wlog modify app]. unfold bind at 1.
  rewrite wrapper_loop. cbv zeta.
  now destruct (failure (model (question payload))).
Qed.

(** ** Counting events *)

Lemma count_if_app {A} (p : A -> bool) (a b : list A) :
  count_if p (a ++ b) = (count_if p a + count_if p b)%nat.
Proof. unfold count_if. now rewrite filter_app, length_app. Qed.

Lemma count_terminal_tokens cs : count_if terminal (tokens_of cs) = 0%nat.
Proof. induction cs as [|c cs IH]; [reflexivity | exact IH]. Qed.

Lemma count_terminal_wrapper_tokens cs :
  count_if terminal (wrapper_tokens cs) = 0%nat.
Proof. induction cs as [|c cs IH]; [reflexivity | exact IH]. Qed.

Lemma count_done_tokens cs : count_if is_done (tokens_of cs) = 0%nat.
Proof. induction cs as [|c cs IH]; [reflexivity | exact IH]. Qed.

Lemma count_error_tokens cs : count_if is_error (tokens_of cs) = 0%nat.
Proof. induction cs as [|c cs IH]; [reflexivity | exact IH]. Qed.

Lemma count_token_tokens cs :
  count_if is_token (tokens_of cs) = List.length cs.
Proof.
  induction cs as [|c cs IH]; [reflexivity|].
  unfold count_if in *. cbn. f_equal. exact IH.
Qed.

Lemma quiet_reliable : reliable quiet.
Proof. intros l c. reflexivity. Qed.

(** ** Runs in which no call on the run tree raises *)

Section Reliable.

Variable settings : Settings.
Variable R : Recorder.
Variable genai_client : Client.
Variable payload : Question.
Hypothesis HR : reliable R.

Lemma reliable_result :
  fst (run settings R genai_client payload) = match failure (genai_client (VERTEX_AI_MODEL settings) (question payload)) with
          | None => Ok tt
          | Some e => if is_Exception e then Ok tt else Raise e
          end.
Proof.
  rewrite run_reliable by exact HR.
  destruct (failure (genai_client (VERTEX_AI_MODEL settings) (question payload))) as [e|]; [destruct (is_Exception e)|]; reflexivity.
Qed.

Lemma reliable_events :
  events (effects (snd (run settings R genai_client payload))) =
  tokens_of (chunks (genai_client (VERTEX_AI_MODEL settings) (question payload))) ++
  match failure (genai_client (VERTEX_AI_MODEL settings) (question payload)) with
  | None => [Done]
  | Some e => if is_Exception e then [Error] else []
  end.
Proof.
  rewrite run_reliable by exact HR.
  destruct (failure (genai_client (VERTEX_AI_MODEL settings) (question payload))) as [e|]; [destruct (is_Exception e)|];
    cbn [snd emit effects]; rewrite ?events_app;
    unfold consumed; rewrite streamed_events; cbn;
    now rewrite ?app_nil_r.
Qed.

Lemma reliable_full_content :
  full_content (snd (run settings R genai_client payload)) = text_of (chunks (genai_client (VERTEX_AI_MODEL settings) (question payload))).
Proof.
  rewrite run_reliable by exact HR.
  destruct (failure (genai_client (VERTEX_AI_MODEL settings) (question payload))) as [e|]; [destruct (is_Exception e)|];
    cbn [snd emit full_content]; unfold consumed;
    now rewrite streamed_full_content.
Qed.

Lemma reliable_usage :
  (input_tokens (snd (run settings R genai_client payload)), output_tokens (snd (run settings R genai_client payload)))
  = usage_after (chunks (genai_client (VERTEX_AI_MODEL settings) (question payload))) (0, 0).
Proof.
  rewrite run_reliable by exact HR.
  destruct (failure (genai_client (VERTEX_AI_MODEL settings) (question payload))) as [e|]; [destruct (is_Exception e)|];
    cbn [snd emit input_tokens output_tokens]; unfold consumed;
    now rewrite streamed_usage.
Qed.

Lemma reliable_trace_calls :
  trace_calls (effects (snd (run settings R genai_client payload))) =
  [RunTree_init (question payload) (VERTEX_AI_MODEL settings); rt_post] ++
  match chunks (genai_client (VERTEX_AI_MODEL settings) (question payload)) with [] => [] | _ :: _ => [rt_add_event "new_token"] end ++
  match failure (genai_client (VERTEX_AI_MODEL settings) (question payload)) with
  | None =>
      [rt_end_outputs (text_of (chunks (genai_client (VERTEX_AI_MODEL settings) (question payload))))
         (fst (usage_after (chunks (genai_client (VERTEX_AI_MODEL settings) (question payload))) (0, 0)))
         (snd (usage_after (chunks (genai_client (VERTEX_AI_MODEL settings) (question payload))) (0, 0)))
         (fst (usage_after (chunks (genai_client (VERTEX_AI_MODEL settings) (question payload))) (0, 0))
          + snd (usage_after (chunks (genai_client (VERTEX_AI_MODEL settings) (question payload))) (0, 0)));
       rt_patch]
  | Some e =>
      if is_Exception e
      then [rt_end_error (exn_str e); rt_patch]
      else []
  end.
Proof.
  rewrite run_reliable by exact HR.
  assert (Hc : trace_calls (effects
                 (consumed settings genai_client payload)) =
               [RunTree_init (question payload) (VERTEX_AI_MODEL settings);
                rt_post] ++
               match chunks (genai_client (VERTEX_AI_MODEL settings) (question payload)) with
               | [] => []
               | _ :: _ => [rt_add_event "new_token"]
               end).
  { unfold consumed. rewrite streamed_trace_calls. reflexivity. }
  assert (He : end_call (consumed settings genai_client payload) =
               rt_end_outputs (text_of (chunks (genai_client (VERTEX_AI_MODEL settings) (question payload))))
                 (fst (usage_after (chunks (genai_client (VERTEX_AI_MODEL settings) (question payload))) (0, 0)))
                 (snd (usage_after (chunks (genai_client (VERTEX_AI_MODEL settings) (question payload))) (0, 0)))
                 (fst (usage_after (chunks (genai_client (VERTEX_AI_MODEL settings) (question payload))) (0, 0))
                  + snd (usage_after (chunks (genai_client (VERTEX_AI_MODEL settings) (question payload))) (0, 0)))).
  { unfold end_call, consumed. rewrite streamed_full_content.
    pose proof (streamed_usage (chunks (genai_client (VERTEX_AI_MODEL settings) (question payload)))
                  (emit [EOpen (VERTEX_AI_MODEL settings) (question payload)]
                        (started settings payload))) as Hu.
    cbn [emit input_tokens output_tokens started init_state] in Hu.
    rewrite <- Hu. reflexivity. }
  destruct (failure (genai_client (VERTEX_AI_MODEL settings) (question payload))) as [e|]; [destruct (is_Exception e)|];
    cbn [snd emit effects]; rewrite ?trace_calls_app, Hc, ?He;
    cbn [trace_calls flat_map app]; rewrite ?app_nil_r; reflexivity.
Qed.

Lemma reliable_printed :
  printed (effects (snd (run settings R genai_client payload))) =
  match failure (genai_client (VERTEX_AI_MODEL settings) (question payload)) with
  | None => []
  | Some e => if is_Exception e then [exn_str e] else []
  end.
Proof.
  rewrite run_reliable by exact HR.
  destruct (failure (genai_client (VERTEX_AI_MODEL settings) (question payload))) as [e|]; [destruct (is_Exception e)|];
    cbn [snd emit effects]; rewrite ?printed_app;
    unfold consumed; rewrite streamed_printed; reflexivity.
Qed.

End Reliable.

(** ** C1 *)

(** C1, counterexample.  With the upstream completing and the success
    finalization [rt.end(outputs=...)] raising, main.py's handler emits
    [DONE] and then [ERROR]: two terminal events, the first of them not
    last.  With the upstream raising, example_wrapper.py's handler emits no
    terminal event at all. *)
Lemma terminal_event_counterexample :
  events (effects (snd run_end_raises))
  = [Token "P"; Token "i"; Token "ng"; Done; Error] /\
  count_if terminal (events (effects (snd run_end_raises))) = 2%nat /\
  Wrapper.wevents (snd wrapper_run_raises) = [Token "partial"] /\
  count_if terminal (Wrapper.wevents (snd wrapper_run_raises)) = 0%nat.
Proof. repeat split; reflexivity. Qed.

(** C1, amended.  In main.py's handler, when no call on the run tree raises
    and the upstream either completes or raises an [Exception], the run
    returns normally and its events are the token events of the chunks
    followed by exactly one terminal event, which is last: [Done] when the
    upstream completed, [Error] when it raised; the buffer and the token
    totals are then those of exactly the chunks the upstream yielded before
    it ended.  In example_wrapper.py's handler, when the upstream completes,
    the events are the token events followed by exactly one terminal event,
    [Done], which is last. *)
Theorem one_terminal_event_last :
  (forall settings R genai_client payload,
      reliable R ->
      (forall e,
          failure (genai_client (VERTEX_AI_MODEL settings) (question payload))
          = Some e -> is_Exception e = true) ->
      let st := genai_client (VERTEX_AI_MODEL settings) (question payload) in
      let r := run settings R genai_client payload in
      fst r = Ok tt /\
      events (effects (snd r)) =
        tokens_of (chunks st) ++
        [match failure st with None => Done | Some _ => Error end] /\
      count_if terminal (events (effects (snd r))) = 1%nat /\
      full_content (snd r) = text_of (chunks st) /\
      (input_tokens (snd r), output_tokens (snd r))
        = usage_after (chunks st) (0, 0)) /\
  (forall model payload,
      failure (model (question payload)) = None ->
      let r := Wrapper.run model payload in
      fst r = Ok tt /\
      Wrapper.wevents (snd r) =
        wrapper_tokens (chunks (model (question payload))) ++ [Done] /\
      count_if terminal (Wrapper.wevents (snd r)) = 1%nat).
Proof.
  split.
  - intros settings R genai_client payload HR Hexn st r.
    assert (Hev : events (effects (snd r)) =
                  tokens_of (chunks st) ++
                  [match failure st with None => Done | Some _ => Error end]).
    { unfold r. rewrite reliable_events by exact HR. fold st.
      destruct (failure st) as [e|] eqn:E; [|reflexivity].
      now rewrite (Hexn e E). }
    repeat split.
    + unfold r. rewrite reliable_result by exact HR. fold st.
      destruct (failure st) as [e|] eqn:E; [|reflexivity].
      now rewrite (Hexn e E).
    + exact Hev.
    + rewrite Hev, count_if_app, count_terminal_tokens.
      now destruct (failure st).
    + apply reliable_full_content, HR.
    + apply reliable_usage, HR.
  - intros model payload Hf r.
    assert (Hev : Wrapper.wevents (snd r) =
                  wrapper_tokens (chunks (model (question payload)))
                  ++ [Done]).
    { unfold r. rewrite wrapper_run_eq. cbv zeta. rewrite Hf. cbn [snd].
      change (Wrapper.WOpen (question payload)
                :: wrapper_effects (chunks (model (question payload)))
                ++ [Wrapper.WYield Done])
        with ([Wrapper.WOpen (question payload)]
                ++ wrapper_effects (chunks (model (question payload)))
                ++ [Wrapper.WYield Done]).
      now rewrite !wevents_app, wevents_wrapper_effects. }
    repeat split.
    + unfold r. rewrite wrapper_run_eq. cbv zeta. now rewrite Hf.
    + exact Hev.
    + rewrite Hev, count_if_app, count_terminal_wrapper_tokens. reflexivity.
Qed.

Lemma one_terminal_event_last_witness :
  events (effects (snd (run demo_settings quiet (partial_stream boom) ping)))
  = [Token "partial"; Error] /\
  events (effects (snd (run demo_settings quiet ping_stream ping)))
  = [Token "P"; Token "i"; Token "ng"; Done] /\
  Wrapper.wevents (snd (Wrapper.run (llm_stream ["P"; "i"; "ng"] None) ping))
  = [Token "P"; Token "i"; Token "ng"; Done].
Proof.
  split; [|split].
  - destruct (proj1 one_terminal_event_last demo_settings quiet
                (partial_stream boom) ping quiet_reliable) as (_ & Hev & _).
    + intros e E. injection E as <-. reflexivity.
    + exact Hev.
  - destruct (proj1 one_terminal_event_last demo_settings quiet
                ping_stream ping quiet_reliable) as (_ & Hev & _).
    + intros e E. discriminate E.
    + exact Hev.
  - destruct (proj2 one_terminal_event_last
                (llm_stream ["P"; "i"; "ng"] None) ping eq_refl)
      as (_ & Hev & _).
    exact Hev.
Defined.

(** ** C2 *)

(** C2, counterexample.  The upstream yields one chunk and raises.  (a) In
    main.py, when [rt.end(error=...)] raises in the [except] clause, that
    exception leaves the generator and no [ERROR] frame is emitted.  (b) In
    main.py, an upstream exception that is not an [Exception] is not caught.
    (c) In example_wrapper.py there is no [except] clause: the upstream
    error leaves the generator.  In the three runs the only event is the
    token of the chunk. *)
Lemma error_event_counterexample :
  (events (effects (snd run_end_error_raises)) = [Token "partial"] /\
   fst run_end_error_raises = Raise boom) /\
  (events (effects (snd run_cancelled)) = [Token "partial"] /\
   fst run_cancelled = Raise cancelled) /\
  (Wrapper.wevents (snd wrapper_run_raises) = [Token "partial"] /\
   fst wrapper_run_raises = Raise boom).
Proof. repeat split; reflexivity. Qed.

(** C2, amended.  For every question and every upstream that raises an
    [Exception] [e] after yielding k chunks, main.py's handler, when no call
    on the run tree raises, emits exactly the k token events followed by
    exactly one error event and no done event; [e] is printed, recorded with
    [rt.end(error=str(e))] and swallowed: the generator returns normally. *)
Theorem tokens_then_error settings R genai_client payload e :
  reliable R ->
  failure (genai_client (VERTEX_AI_MODEL settings) (question payload))
  = Some e ->
  is_Exception e = true ->
  let st := genai_client (VERTEX_AI_MODEL settings) (question payload) in
  let r := run settings R genai_client payload in
  fst r = Ok tt /\
  events (effects (snd r)) = tokens_of (chunks st) ++ [Error] /\
  count_if is_token (events (effects (snd r))) = List.length (chunks st) /\
  count_if is_error (events (effects (snd r))) = 1%nat /\
  count_if is_done (events (effects (snd r))) = 0%nat /\
  printed (effects (snd r)) = [exn_str e] /\
  In (rt_end_error (exn_str e)) (trace_calls (effects (snd r))).
Proof.
  intros HR Hf He. cbv zeta.
  assert (Hev : events (effects (snd (run settings R genai_client payload)))
                = tokens_of (chunks (genai_client (VERTEX_AI_MODEL settings)
                                                  (question payload)))
                  ++ [Error]).
  { rewrite reliable_events by exact HR. now rewrite Hf, He. }
  repeat split.
  - rewrite reliable_result by exact HR. now rewrite Hf, He.
  - exact Hev.
  - rewrite Hev, count_if_app, count_token_tokens. cbn. lia.
  - now rewrite Hev, count_if_app, count_error_tokens.
  - now rewrite Hev, count_if_app, count_done_tokens.
  - rewrite reliable_printed by exact HR. now rewrite Hf, He.
  - rewrite reliable_trace_calls by exact HR. rewrite Hf, He.
    apply in_or_app. right. apply in_or_app. right. now left.
Qed.

Lemma tokens_then_error_witness :
  fst (run demo_settings quiet (partial_stream boom) ping) = Ok tt /\
  events (effects (snd (run demo_settings quiet (partial_stream boom) ping)))
  = [Token "partial"; Error].
Proof.
  destruct (tokens_then_error demo_settings quiet (partial_stream boom) ping
              boom quiet_reliable eq_refl eq_refl) as (Hr & Hev & _).
  split; [exact Hr | exact Hev].
Defined.

(** ** C5 *)

(** C5, counterexample.  The question is not empty and the upstream yields
    three chunks and completes, but [rt.post()] raises: the generator raises
    before the [try] and emits no event. *)
Lemma tokens_then_done_counterexample :
  question ping <> "" /\
  failure (ping_stream (VERTEX_AI_MODEL demo_settings) (question ping)) = None /\
  events (effects (snd run_post_raises)) = [] /\
  events (effects (snd run_post_raises)) <>
    tokens_of (chunks (ping_stream (VERTEX_AI_MODEL demo_settings)
                                   (question ping))) ++ [Done] /\
  fst run_post_raises = Raise boom.
Proof. repeat split; try reflexivity; discriminate. Qed.

(** C5, amended.  For every question and every upstream sequence of N
    chunks that completes without error, main.py's handler, when no call on
    the run tree raises, and example_wrapper.py's handler emit exactly N
    token events, in the order of the chunks and each carrying that chunk's
    fragment (in main.py the empty fragment for a chunk whose text is None
    or empty), followed by exactly one done event. *)
Theorem tokens_then_done :
  (forall settings R genai_client payload,
      reliable R ->
      failure (genai_client (VERTEX_AI_MODEL settings) (question payload))
      = None ->
      let st := genai_client (VERTEX_AI_MODEL settings) (question payload) in
      let r := run settings R genai_client payload in
      fst r = Ok tt /\
      events (effects (snd r)) = tokens_of (chunks st) ++ [Done] /\
      count_if is_token (events (effects (snd r))) = List.length (chunks st) /\
      count_if is_done (events (effects (snd r))) = 1%nat) /\
  (forall model payload,
      failure (model (question payload)) = None ->
      let st := model (question payload) in
      let r := Wrapper.run model payload in
      fst r = Ok tt /\
      Wrapper.wevents (snd r) = wrapper_tokens (chunks st) ++ [Done]).
Proof.
  split.
  - intros settings R genai_client payload HR Hf. cbv zeta.
    assert (Hev : events (effects (snd (run settings R genai_client payload)))
                  = tokens_of (chunks (genai_client (VERTEX_AI_MODEL settings)
                                                    (question payload)))
                    ++ [Done]).
    { rewrite reliable_events by exact HR. now rewrite Hf. }
    repeat split.
    + rewrite reliable_result by exact HR. now rewrite Hf.
    + exact Hev.
    + rewrite Hev, count_if_app, count_token_tokens. cbn. lia.
    + now rewrite Hev, count_if_app, count_done_tokens.
  - intros model payload Hf st r. unfold r. rewrite wrapper_run_eq.
    cbv zeta. rewrite Hf. cbn [fst snd]. split; [reflexivity|].
    change (Wrapper.WOpen (question payload)
              :: wrapper_effects (chunks (model (question payload)))
              ++ [Wrapper.WYield Done])
      with ([Wrapper.WOpen (question payload)]
              ++ wrapper_effects (chunks (model (question payload)))
              ++ [Wrapper.WYield Done]).
    now rewrite !wevents_app, wevents_wrapper_effects.
Qed.

Lemma tokens_then_done_witness :
  map render (events (effects (snd (run demo_settings quiet ping_stream ping))))
  = [frame "P"; frame "i"; frame "ng"; frame "[DONE]"] /\
  Wrapper.wevents (snd (Wrapper.run (llm_stream ["P"; "i"; "ng"] None) ping))
  = [Token "P"; Token "i"; Token "ng"; Done].
Proof.
  split.
  - destruct (proj1 tokens_then_done demo_settings quiet ping_stream ping
                quiet_reliable eq_refl) as (_ & Hev & _).
    rewrite Hev. reflexivity.
  - apply (proj2 tokens_then_done (llm_stream ["P"; "i"; "ng"] None) ping).
    reflexivity.
Defined.

(** ** C10 *)

(** C10.  The handler is deterministic in the question and the upstream
    sequence: two runs of main.py's handler on the same question whose
    upstreams behave alike, under any two settings and any two recorders
    whose calls do not raise, give the same outcome, the same frames and the
    same final buffer and token totals; two runs of example_wrapper.py's
    handler whose upstreams behave alike are equal. *)
Theorem runs_agree :
  (forall settings1 settings2 R1 R2 client1 client2 payload,
      reliable R1 -> reliable R2 ->
      client1 (VERTEX_AI_MODEL settings1) (question payload)
      = client2 (VERTEX_AI_MODEL settings2) (question payload) ->
      let r1 := run settings1 R1 client1 payload in
      let r2 := run settings2 R2 client2 payload in
      fst r1 = fst r2 /\
      map render (events (effects (snd r1)))
      = map render (events (effects (snd r2))) /\
      full_content (snd r1) = full_content (snd r2) /\
      input_tokens (snd r1) = input_tokens (snd r2) /\
      output_tokens (snd r1) = output_tokens (snd r2)) /\
  (forall model1 model2 payload,
      model1 (question payload) = model2 (question payload) ->
      Wrapper.run model1 payload = Wrapper.run model2 payload).
Proof.
  split.
  - intros settings1 settings2 R1 R2 client1 client2 payload H1 H2 Hst r1 r2.
    pose proof (reliable_usage settings1 R1 client1 payload H1) as U1.
    pose proof (reliable_usage settings2 R2 client2 payload H2) as U2.
    rewrite Hst in U1. rewrite <- U2 in U1. injection U1 as Ui Uo.
    unfold r1, r2.
    rewrite !reliable_result, !reliable_events, !reliable_full_content
      by assumption.
    rewrite Hst. repeat split; assumption.
  - intros model1 model2 payload Hst.
    rewrite !wrapper_run_eq. cbv zeta. now rewrite Hst.
Qed.

Lemma runs_agree_witness :
  map render
    (events (effects (snd (run demo_settings quiet ping_stream ping))))
  = map render
      (events (effects
         (snd (run (mkSettings "other") (raising_at (fun _ => false) boom)
                   ping_stream ping)))).
Proof.
  destruct (proj1 runs_agree demo_settings (mkSettings "other") quiet
              (raising_at (fun _ => false) boom) ping_stream ping_stream ping
              quiet_reliable (fun _ _ => eq_refl) eq_refl)
    as (_ & Hframes & _).
  exact Hframes.
Defined.

(** ** Every run, whatever the recorder does *)

Ltac split_run :=
  rewrite run_eq; unfold try_except;
  repeat match goal with
    | |- context [try_body _ _ _ _ _] =>
        rewrite try_body_eq by reflexivity; cbv zeta
    | |- context [on_success _ _] => rewrite on_success_eq; unfold end_of
    | |- context [except_body _ _ _] => rewrite except_body_eq
    | |- context [match chunks ?st with _ => _ end] =>
        let E := fresh "Ecs" in destruct (chunks st) eqn:E
    | |- context [match failure ?st with _ => _ end] =>
        let E := fresh "Efin" in destruct (failure st) eqn:E
    | |- context [if is_Exception ?e then _ else _] =>
        let E := fresh "Eexn" in destruct (is_Exception e) eqn:E
    | R : Recorder |- context [match ?R' ?l ?c with _ => _ end] =>
        constr_eq R R'; let E := fresh "ER" in destruct (R l c) eqn:E
    end.

Ltac observe :=
  cbn [fst snd emit effects full_content input_tokens output_tokens
       first_token marked seen];
  rewrite ?trace_calls_app, ?events_app, ?received_app, ?opened_app,
    ?streamed_trace_calls, ?streamed_events, ?streamed_received,
    ?streamed_opened;
  cbn [trace_calls events received opened flat_map app started init_state
       emit effects].

Lemma end_call_streamed settings genai_client payload out i o t :
  end_call (consumed settings genai_client payload) = rt_end_outputs out i o t ->
  out = text_of (chunks (genai_client (VERTEX_AI_MODEL settings)
                                      (question payload))) /\
  (i, o) = usage_after (chunks (genai_client (VERTEX_AI_MODEL settings)
                                             (question payload))) (0, 0) /\
  t = i + o.
Proof.
  unfold end_call, consumed. intro H. injection H as <- <- <- <-.
  rewrite streamed_full_content, streamed_usage. repeat split.
Qed.

Lemma success_finalization settings R genai_client payload out i o t :
  In (rt_end_outputs out i o t)
     (trace_calls (effects (snd (run settings R genai_client payload)))) ->
  failure (genai_client (VERTEX_AI_MODEL settings) (question payload)) = None /\
  out = text_of (chunks (genai_client (VERTEX_AI_MODEL settings)
                                      (question payload))) /\
  (i, o) = usage_after (chunks (genai_client (VERTEX_AI_MODEL settings)
                                             (question payload))) (0, 0) /\
  t = i + o.
Proof.
  pose proof (end_call_streamed settings genai_client payload out i o t) as HE.
  unfold consumed in HE. revert HE.
  split_run; observe; intros HE H; cbn [In] in H;
    repeat (destruct H as [H|H]; try discriminate H);
    try contradiction; (split; [reflexivity | exact (HE H)]).
Qed.

(** ** C6 *)

Lemma usage_after_app a b io :
  usage_after (a ++ b) io = usage_after b (usage_after a io).
Proof. unfold usage_after. apply fold_left_app. Qed.

Lemma usage_after_none cs : forall io,
  (forall d, In d cs -> usage_metadata d = None) ->
  usage_after cs io = io.
Proof.
  induction cs as [|c cs IH]; intros io H; [reflexivity|].
  rewrite usage_after_cons, (H c (or_introl eq_refl)).
  apply IH. intros d Hd. apply H. now right.
Qed.

Lemma usage_after_last pre c u post io :
  usage_metadata c = Some u ->
  (forall d, In d post -> usage_metadata d = None) ->
  usage_after (pre ++ c :: post) io
  = (prompt_token_count u, candidates_token_count u).
Proof.
  intros Hc Hpost.
  rewrite usage_after_app, usage_after_cons, Hc.
  now apply usage_after_none.
Qed.

(** C6.  Whenever the handler finalizes the trace as a success, that is
    calls [rt.end(outputs=..., metadata=...)] with totals [i], [o], [t]:
    the upstream completed without error, [t = i + o], [i] and [o] are the
    counts of the last chunk of the upstream sequence that carries usage
    (whatever the chunks before it carried), and both are zero when no
    chunk carries usage. *)
Theorem totals_on_success settings R genai_client payload out i o t :
  In (rt_end_outputs out i o t)
     (trace_calls (effects (snd (run settings R genai_client payload)))) ->
  failure (genai_client (VERTEX_AI_MODEL settings) (question payload)) = None /\
  t = i + o /\
  (forall pre c u post,
      chunks (genai_client (VERTEX_AI_MODEL settings) (question payload))
      = pre ++ c :: post ->
      usage_metadata c = Some u ->
      (forall d, In d post -> usage_metadata d = None) ->
      i = prompt_token_count u /\ o = candidates_token_count u) /\
  ((forall d,
       In d (chunks (genai_client (VERTEX_AI_MODEL settings)
                                  (question payload))) ->
       usage_metadata d = None) ->
   i = 0 /\ o = 0).
Proof.
  intro H. apply success_finalization in H.
  destruct H as (Hf & _ & Hio & Ht).
  split; [exact Hf|]. split; [exact Ht|]. split.
  - intros pre c u post Hcs Hc Hpost.
    rewrite Hcs, (usage_after_last pre c u post (0, 0) Hc Hpost) in Hio.
    injection Hio as -> ->. split; reflexivity.
  - intro Hnone.
    rewrite (usage_after_none _ (0, 0) Hnone) in Hio.
    injection Hio as -> ->. split; reflexivity.
Qed.

Lemma totals_on_success_witness :
  In (rt_end_outputs "Ping" 5 3 8)
     (trace_calls (effects (snd (run demo_settings quiet usage_stream ping))))
  /\ 8 = 5 + 3
  /\ (5 = prompt_token_count (mkUsage 5 3)
      /\ 3 = candidates_token_count (mkUsage 5 3)).
Proof.
  assert (H : In (rt_end_outputs "Ping" 5 3 8)
                 (trace_calls
                    (effects (snd (run demo_settings quiet usage_stream ping))))).
  { cbn. right. right. right. left. reflexivity. }
  destruct (totals_on_success demo_settings quiet usage_stream ping
              "Ping" 5 3 8 H) as (_ & Ht & Hlast & _).
  split; [exact H|]. split; [exact Ht|].
  apply (Hlast [plain "P"; usage_chunk 5 1; plain "i"] (usage_chunk 5 3)
               (mkUsage 5 3) [plain "ng"]).
  - reflexivity.
  - reflexivity.
  - intros d [<-|[]]. reflexivity.
Defined.

(** ** C7 *)

(** C7.  In every run of main.py's handler: if no chunk was received, no
    first-token marker call was made; if a chunk was received, whatever its
    text and usage, exactly one marker call [rt.add_event({"name":
    "new_token"})] was made in the whole run, and it is the effect that
    immediately follows the reception of the first chunk.  The first chunk
    received is the first chunk of the upstream whenever the trace was
    started. *)
Theorem first_token_marker settings R genai_client payload :
  match received (effects (snd (run settings R genai_client payload))) with
  | [] =>
      marker_count (effects (snd (run settings R genai_client payload)))
      = 0%nat
  | c :: _ =>
      marker_count (effects (snd (run settings R genai_client payload)))
      = 1%nat /\
      after_first_chunk (effects (snd (run settings R genai_client payload)))
      = Some (ETrace (rt_add_event "new_token"))
  end /\
  hd_error (received (effects (snd (run settings R genai_client payload))))
  = if trace_started settings R payload
    then hd_error (chunks (genai_client (VERTEX_AI_MODEL settings)
                                        (question payload)))
    else None.
Proof.
  unfold trace_started, marker_count.
  split_run;
    cbn [fst snd emit effects marked seen started init_state];
    rewrite ?trace_calls_app, ?received_app, ?streamed_trace_calls,
      ?streamed_received, ?streamed_effects;
    cbn; auto.
Qed.

(** The first chunk has no text and the marker call raises: the one marker
    call still follows the reception of that chunk. *)
Lemma first_token_marker_witness :
  marker_count (effects (snd run_marker_raises)) = 1%nat /\
  after_first_chunk (effects (snd run_marker_raises))
  = Some (ETrace (rt_add_event "new_token")).
Proof.
  exact (proj1 (first_token_marker demo_settings (raising_at is_marker boom)
                  (fixed_stream [mkChunk None None; plain "x"] None) ping)).
Defined.

(** ** C3 *)

(** C3, counterexample.  A request whose question is the empty text passes
    validation: the handler runs and calls the upstream with the empty
    prompt. *)
Lemma empty_question_counterexample :
  ask demo_settings quiet ping_stream (Some "")
  = StreamingResponse (run demo_settings quiet ping_stream (mkQuestion "")) /\
  opened (effects (snd (run demo_settings quiet ping_stream (mkQuestion ""))))
  = [("gemini", "")].
Proof. split; reflexivity. Qed.

(** C3, amended.  A request whose question attribute is absent is rejected
    with a validation error: the handler does not run and the upstream is
    not contacted.  A request whose question is present, the empty text
    included, is accepted: the handler runs with it and, once the trace is
    started, calls the upstream exactly once with the configured model and
    that text as the prompt. *)
Theorem question_validation settings R genai_client :
  ask settings R genai_client None = ValidationError /\
  forall q,
    ask settings R genai_client (Some q)
    = StreamingResponse (run settings R genai_client (mkQuestion q)) /\
    opened (effects (snd (run settings R genai_client (mkQuestion q))))
    = if trace_started settings R (mkQuestion q)
      then [(VERTEX_AI_MODEL settings, q)]
      else [].
Proof.
  split; [reflexivity|]. intro q. split; [reflexivity|].
  unfold trace_started.
  split_run; observe; reflexivity.
Qed.

(** ** C4 *)

(** C4, counterexample.  Same question and same upstream (three chunks, no
    error): with a recorder whose calls return, the caller receives the
    three tokens and [DONE]; when [rt.post()] raises, the caller receives no
    event and the exception leaves the generator; when [rt.add_event]
    raises, the caller receives [ERROR] alone. *)
Lemma best_effort_counterexample :
  events (effects (snd (run demo_settings quiet ping_stream ping)))
  = [Token "P"; Token "i"; Token "ng"; Done] /\
  events (effects (snd run_post_raises)) = [] /\
  fst run_post_raises = Raise boom /\
  events (effects (snd (run demo_settings (raising_at is_marker boom)
                            ping_stream ping)))
  = [Error].
Proof. repeat split; reflexivity. Qed.

(** C4, amended.  A call on the run tree that raises is not swallowed.
    (1) When [RunTree(...)] or [rt.post()] raises, the exception leaves the
    generator before any event is emitted and before the upstream is
    called.  (2) When the success finalization [rt.end(outputs=...)] raises
    an [Exception] (the other calls returning), the handler's [except]
    clause emits [ERROR] after the tokens and [DONE].  (3) When the
    first-token marker call raises an [Exception] (the other calls
    returning), the events are [ERROR] alone.  (4) Among the runs in which
    no call on the run tree raises, the outcome and the events do not depend
    on the recorder. *)
Theorem trace_failures_surface :
  (forall settings R genai_client payload e,
      R [] (RunTree_init (question payload) (VERTEX_AI_MODEL settings))
      = Some e \/
      (R [] (RunTree_init (question payload) (VERTEX_AI_MODEL settings))
       = None /\
       R [RunTree_init (question payload) (VERTEX_AI_MODEL settings)] rt_post
       = Some e) ->
      fst (run settings R genai_client payload) = Raise e /\
      events (effects (snd (run settings R genai_client payload))) = [] /\
      opened (effects (snd (run settings R genai_client payload))) = []) /\
  (forall settings genai_client payload e,
      is_Exception e = true ->
      failure (genai_client (VERTEX_AI_MODEL settings) (question payload))
      = None ->
      fst (run settings (raising_at is_end_outputs e) genai_client payload)
      = Ok tt /\
      events (effects (snd (run settings (raising_at is_end_outputs e)
                                genai_client payload)))
      = tokens_of (chunks (genai_client (VERTEX_AI_MODEL settings)
                                        (question payload)))
        ++ [Done; Error]) /\
  (forall settings genai_client payload e,
      is_Exception e = true ->
      chunks (genai_client (VERTEX_AI_MODEL settings) (question payload))
      <> [] ->
      fst (run settings (raising_at is_marker e) genai_client payload)
      = Ok tt /\
      events (effects (snd (run settings (raising_at is_marker e)
                                genai_client payload)))
      = [Error]) /\
  (forall settings R1 R2 genai_client payload,
      reliable R1 -> reliable R2 ->
      fst (run settings R1 genai_client payload)
      = fst (run settings R2 genai_client payload) /\
      events (effects (snd (run settings R1 genai_client payload)))
      = events (effects (snd (run settings R2 genai_client payload)))).
Proof.
  split; [|split; [|split]].
  - intros settings R genai_client payload e [H | [H1 H2]];
      rewrite run_eq; [rewrite H | rewrite H1, H2]; repeat split.
  - intros settings genai_client payload e He Hf.
    rewrite run_eq. unfold try_except.
    rewrite try_body_eq by reflexivity. cbv zeta. rewrite Hf.
    destruct (chunks (genai_client (VERTEX_AI_MODEL settings)
                                   (question payload))) as [|c cs] eqn:Ecs;
      rewrite on_success_eq;
      unfold raising_at, end_call; cbn [is_end_outputs is_post];
      change (is_end_outputs (rt_add_event "new_token")) with false;
      cbv iota; rewrite He, except_body_eq;
      unfold raising_at; cbn [is_end_outputs];
      observe; cbn [tokens_of map app];
      rewrite <- ?app_assoc; split; reflexivity.
  - intros settings genai_client payload e He Hcs.
    rewrite run_eq. unfold try_except.
    rewrite try_body_eq by reflexivity. cbv zeta.
    unfold raising_at; cbn [is_marker is_post].
    change (String.eqb "new_token" "new_token") with true. cbv iota.
    destruct (chunks (genai_client (VERTEX_AI_MODEL settings)
                                   (question payload))) as [|c cs] eqn:Ecs;
      [now elim Hcs|].
    rewrite He, except_body_eq. cbn [is_marker]. split; reflexivity.
  - intros settings R1 R2 genai_client payload H1 H2.
    rewrite !reliable_result, !reliable_events by assumption.
    split; reflexivity.
Qed.

Lemma trace_failures_surface_witness :
  events (effects (snd run_post_raises)) = [] /\
  events (effects (snd run_end_raises))
  = [Token "P"; Token "i"; Token "ng"; Done; Error] /\
  events (effects (snd (run demo_settings (raising_at is_marker boom)
                            ping_stream ping)))
  = [Error] /\
  fst (run demo_settings quiet ping_stream ping)
  = fst (run demo_settings (raising_at (fun _ => false) boom) ping_stream ping).
Proof.
  destruct trace_failures_surface as (Hstart & Hend & Hmark & Hrel).
  split; [|split; [|split]].
  - destruct (Hstart demo_settings (raising_at is_post boom) ping_stream ping
                boom (or_intror (conj eq_refl eq_refl))) as (_ & Hev & _).
    exact Hev.
  - destruct (Hend demo_settings ping_stream ping boom eq_refl eq_refl)
      as (_ & Hev).
    exact Hev.
  - destruct (Hmark demo_settings ping_stream ping boom eq_refl) as (_ & Hev).
    + discriminate.
    + exact Hev.
  - destruct (Hrel demo_settings quiet (raising_at (fun _ => false) boom)
                ping_stream ping quiet_reliable (fun _ _ => eq_refl))
      as (Hres & _).
    exact Hres.
Defined.

(** ** C8 *)

(** C8, counterexample.  The first chunk arrives and the first-token marker
    call raises: the loop body stops at line 114, the fragment is not
    appended to the buffer and no token event is emitted for the chunk. *)
Lemma chunk_to_token_counterexample :
  fst body_marker_raises = Raise boom /\
  full_content (snd body_marker_raises) = "" /\
  events (effects (snd body_marker_raises)) = [].
Proof. repeat split; reflexivity. Qed.

(** C8, amended.  For every chunk for which the loop body is not cut short
    by a raising first-token marker call (the chunk is not the first, or the
    marker call returns), whatever its text: the body completes, appends the
    fragment to the buffer and emits exactly one token event, whose frame is
    [data: ] followed by the fragment and two line feeds; a chunk whose text
    is None or empty has the empty fragment and the frame [data: ] followed
    by two line feeds.  The done event renders as [data: [DONE]] and the
    error event as [data: [ERROR]], each followed by two line feeds. *)
Theorem chunk_to_token R chunk s :
  first_token s <> None \/
  R (trace_calls (effects s)) (rt_add_event "new_token") = None ->
  (exists s',
      loop_body R chunk s = (Ok tt, s') /\
      full_content s' = (full_content s ++ fragment chunk)%string /\
      events (effects s') = events (effects s) ++ [Token (fragment chunk)]) /\
  render (Token (fragment chunk))
  = ("data: " ++ fragment chunk ++ LF ++ LF)%string /\
  (text chunk = None \/ text chunk = Some "" ->
   fragment chunk = "" /\
   render (Token (fragment chunk)) = ("data: " ++ LF ++ LF)%string) /\
  (forall t, text chunk = Some t -> fragment chunk = t) /\
  render Done = ("data: [DONE]" ++ LF ++ LF)%string /\
  render Error = ("data: [ERROR]" ++ LF ++ LF)%string.
Proof.
  intro H. split; [|split; [|split; [|split; [|split]]]];
    try reflexivity.
  - destruct (first_token s) as [ft|] eqn:Eft.
    + exists (absorb chunk s). split; [|split].
      * exact (loop_body_marked R chunk s ft Eft).
      * reflexivity.
      * cbn [absorb effects]. apply events_app.
    + destruct H as [H|H]; [now elim H|].
      exists (absorb chunk (marked chunk s)). split; [|split].
      * rewrite (loop_body_first R chunk s Eft), H. reflexivity.
      * reflexivity.
      * cbn [absorb marked effects]. rewrite !events_app. cbn.
        now rewrite app_nil_r.
  - intro Hempty. unfold fragment.
    destruct Hempty as [-> | ->]; split; reflexivity.
  - intros t Ht. unfold fragment. rewrite Ht. now destruct t.
Qed.

Lemma chunk_to_token_witness :
  exists s',
    loop_body quiet (mkChunk None None) init_state = (Ok tt, s') /\
    full_content s' = "" /\
    events (effects s') = [Token ""].
Proof.
  destruct (chunk_to_token quiet (mkChunk None None) init_state
              (or_intror eq_refl)) as (Hbody & _).
  exact Hbody.
Defined.

(** ** C9 *)

(** C9.  The concatenated frames of a stream of token events do not
    determine the fragments: the one-chunk sequence whose text is
    [a], two line feeds, [data: b] and the two-chunk sequence [a], [b] are
    different and have byte-identical encodings, in both handlers. *)
Theorem encoding_not_injective :
  joined_fragments <> split_fragments /\
  List.length joined_fragments = 1%nat /\
  List.length split_fragments = 2%nat /\
  encode joined_fragments = encode split_fragments /\
  sse_body (events (effects (snd (run demo_settings quiet
    (fixed_stream (map plain joined_fragments) None) ping))))
  = sse_body (events (effects (snd (run demo_settings quiet
      (fixed_stream (map plain split_fragments) None) ping)))) /\
  sse_body (Wrapper.wevents (snd (Wrapper.run
    (llm_stream joined_fragments None) ping)))
  = sse_body (Wrapper.wevents (snd (Wrapper.run
      (llm_stream split_fragments None) ping))) /\
  ~ (forall l1 l2 : list string, encode l1 = encode l2 -> l1 = l2).
Proof.
  assert (Hne : joined_fragments <> split_fragments) by discriminate.
  assert (Heq : encode joined_fragments = encode split_fragments)
    by reflexivity.
  repeat split; try reflexivity; try exact Hne.
  intro Hinj. exact (Hne (Hinj _ _ Heq)).
Qed.

(** ** Further properties of src/main.py: the shape of every stream *)

Ltac try_shape toks tail :=
  solve [ exists toks, tail;
          split; [rewrite <- ?app_assoc, ?app_nil_r; reflexivity|];
          split; [auto|]; auto 10 ].

Ltac pick_shape cs :=
  first
    [ try_shape (@nil OutboundEvent) (@nil OutboundEvent)
    | try_shape (@nil OutboundEvent) [Error]
    | try_shape (@nil OutboundEvent) [Done]
    | try_shape (@nil OutboundEvent) [Done; Error]
    | try_shape (tokens_of cs) (@nil OutboundEvent)
    | try_shape (tokens_of cs) [Error]
    | try_shape (tokens_of cs) [Done]
    | try_shape (tokens_of cs) [Done; Error] ].

(** X1.  Whatever the recorder and the upstream do, the events of a run of
    main.py's handler are token events followed by at most one done and at
    most one error event, in that order: the tokens are none or those of
    all the upstream's chunks in order, a done event is emitted only after
    every chunk was emitted and the upstream completed, and nothing follows
    an error event. *)
Theorem stream_shape settings R genai_client payload :
  exists toks tail,
    events (effects (snd (run settings R genai_client payload)))
    = toks ++ tail /\
    (toks = [] \/
     toks = tokens_of (chunks (genai_client (VERTEX_AI_MODEL settings)
                                            (question payload)))) /\
    (tail = [] \/ tail = [Error] \/
     ((tail = [Done] \/ tail = [Done; Error]) /\
      toks = tokens_of (chunks (genai_client (VERTEX_AI_MODEL settings)
                                             (question payload))) /\
      failure (genai_client (VERTEX_AI_MODEL settings) (question payload))
      = None)).
Proof.
  split_run; observe.
  all: match goal with
       | |- context [tokens_of ?cs] => pick_shape cs
       | |- _ => pick_shape (@nil Chunk)
       end.
Qed.

Lemma payloads_app a b : payloads (a ++ b) = payloads a ++ payloads b.
Proof. apply flat_map_app. Qed.

Lemma payloads_tokens_of cs : payloads (tokens_of cs) = map fragment cs.
Proof.
  induction cs as [|c cs IH]; [reflexivity|]. cbn. f_equal. exact IH.
Qed.

(** X2.  In every run of main.py's handler, whatever the recorder and the
    upstream do, the full-output buffer at the end is the concatenation, in
    order, of the fragments of the token events that were emitted: a
    fragment is in the buffer if and only if its token was sent. *)
Theorem buffer_is_what_was_sent settings R genai_client payload :
  full_content (snd (run settings R genai_client payload))
  = String.concat ""
      (payloads (events (effects (snd (run settings R genai_client payload))))).
Proof.
  split_run; observe;
    rewrite ?streamed_full_content, ?payloads_app, ?payloads_tokens_of;
    cbn [payloads flat_map app full_content started init_state emit
         String.concat append];
    rewrite ?app_nil_r; reflexivity.
Qed.

(** X3.  In every run of main.py's handler the first call on the run tree
    is its construction with the question as prompt and the configured
    model; [rt.end(outputs=...)] is called at most once, [rt.end(error=...)]
    at most once, and [rt.patch()] never more often than [rt.end]. *)
Theorem trace_lifecycle settings R genai_client payload :
  hd_error (trace_calls (effects (snd (run settings R genai_client payload))))
  = Some (RunTree_init (question payload) (VERTEX_AI_MODEL settings)) /\
  (count_if is_end_outputs
     (trace_calls (effects (snd (run settings R genai_client payload))))
   <= 1)%nat /\
  (count_if is_end_error
     (trace_calls (effects (snd (run settings R genai_client payload))))
   <= 1)%nat /\
  (count_if is_patch
     (trace_calls (effects (snd (run settings R genai_client payload))))
   <= count_if is_end
        (trace_calls (effects (snd (run settings R genai_client payload)))))%nat.
Proof.
  split_run; observe; cbn; repeat split; lia.
Qed.

(** X4.  In every run of main.py's handler the lines printed are exactly
    the texts passed to [rt.end(error=...)], in the same order: an exception
    is printed if and only if the handler goes on to record it in the
    trace. *)
Theorem printed_is_recorded settings R genai_client payload :
  printed (effects (snd (run settings R genai_client payload)))
  = error_texts
      (trace_calls (effects (snd (run settings R genai_client payload)))).
Proof.
  split_run;
    cbn [fst snd emit effects marked seen started init_state];
    rewrite ?trace_calls_app, ?printed_app, ?streamed_trace_calls,
      ?streamed_printed;
    cbn; reflexivity.
Qed.

(** X5.  Whenever main.py's handler finalizes the trace as a success, the
    output it passes to [rt.end(outputs=...)] is the concatenation of the
    fragments of all the upstream's chunks, and the call comes right after
    the done event was yielded: the caller is told [DONE] before the trace
    is written. *)
Theorem success_record_after_done settings R genai_client payload out i o t :
  In (rt_end_outputs out i o t)
     (trace_calls (effects (snd (run settings R genai_client payload)))) ->
  out = text_of (chunks (genai_client (VERTEX_AI_MODEL settings)
                                      (question payload))) /\
  exists pre post,
    effects (snd (run settings R genai_client payload))
    = pre ++ EYield Done :: ETrace (rt_end_outputs out i o t) :: post.
Proof.
  intro H. split.
  { destruct (success_finalization _ _ _ _ _ _ _ _ H) as (_ & Hout & _).
    exact Hout. }
  revert H.
  split_run;
    cbn [fst snd emit effects marked seen started init_state];
    rewrite ?trace_calls_app, ?streamed_trace_calls;
    cbn [trace_calls flat_map app emit effects started init_state];
    intro H; cbn [In] in H;
    repeat (destruct H as [H|H]; try discriminate H);
    try contradiction;
    rewrite <- H;
    match goal with
    | |- exists pre post, (?A ++ EYield Done :: ETrace _ :: ?T1) ++ ?T2 = _ =>
        exists A, (T1 ++ T2)
    | |- exists pre post, ?A ++ EYield Done :: ETrace _ :: ?T1 = _ =>
        exists A, T1
    end;
    rewrite <- ?app_assoc; reflexivity.
Qed.

Lemma success_record_after_done_witness :
  exists pre post,
    effects (snd (run demo_settings quiet usage_stream ping))
    = pre ++ EYield Done :: ETrace (rt_end_outputs "Ping" 5 3 8) :: post.
Proof.
  assert (H : In (rt_end_outputs "Ping" 5 3 8)
                 (trace_calls
                    (effects (snd (run demo_settings quiet usage_stream ping))))).
  { cbn. right. right. right. left. reflexivity. }
  destruct (success_record_after_done demo_settings quiet usage_stream ping
              "Ping" 5 3 8 H) as (_ & Hpos).
  exact Hpos.
Defined.

(** X6.  When the upstream raises an exception that is not an [Exception]
    (a cancellation) and no call on the run tree raises, main.py's handler
    lets it through: the generator raises that same exception after the
    tokens of the chunks yielded so far, emits no terminal event, prints
    nothing and leaves the trace without any [rt.end] or [rt.patch]. *)
Theorem cancellation_passes_through settings R genai_client payload e :
  reliable R ->
  failure (genai_client (VERTEX_AI_MODEL settings) (question payload))
  = Some e ->
  is_Exception e = false ->
  fst (run settings R genai_client payload) = Raise e /\
  events (effects (snd (run settings R genai_client payload)))
  = tokens_of (chunks (genai_client (VERTEX_AI_MODEL settings)
                                    (question payload))) /\
  printed (effects (snd (run settings R genai_client payload))) = [] /\
  count_if is_end
    (trace_calls (effects (snd (run settings R genai_client payload))))
  = 0%nat /\
  count_if is_patch
    (trace_calls (effects (snd (run settings R genai_client payload))))
  = 0%nat.
Proof.
  intros HR Hf He.
  rewrite reliable_result, reliable_events, reliable_printed,
    reliable_trace_calls by exact HR.
  rewrite Hf, He, !app_nil_r.
  repeat split;
    now destruct (chunks (genai_client (VERTEX_AI_MODEL settings)
                                       (question payload))).
Qed.

Lemma cancellation_passes_through_witness :
  fst run_cancelled = Raise cancelled /\
  events (effects (snd run_cancelled)) = [Token "partial"].
Proof.
  destruct (cancellation_passes_through demo_settings quiet
              (partial_stream cancelled) ping cancelled quiet_reliable
              eq_refl eq_refl) as (Hr & Hev & _).
  split; [exact Hr | exact Hev].
Defined.

(** ** Further properties of the frames *)

Lemma string_length_append (a b : string) :
  String.length (a ++ b) = (String.length a + String.length b)%nat.
Proof. induction a as [|x a IH]; cbn; [reflexivity | now rewrite IH]. Qed.

Lemma append_cancel_r (s : string) : forall a b : string,
  (a ++ s)%string = (b ++ s)%string -> a = b.
Proof.
  induction a as [|x a IH]; intros [|y b] H; cbn in H.
  - reflexivity.
  - apply (f_equal String.length) in H. cbn in H.
    rewrite string_length_append in H. lia.
  - apply (f_equal String.length) in H. cbn in H.
    rewrite string_length_append in H. lia.
  - injection H as -> H. f_equal. now apply IH.
Qed.

Lemma frame_injective (p p' : string) : frame p = frame p' -> p = p'.
Proof.
  unfold frame. intro H.
  apply (append_cancel_r (LF ++ LF)%string).
  cbn in H. now repeat injection H as H.
Qed.

(** X7.  One frame determines its payload, and two events render to the
    same frame exactly when they are equal or one is a token whose text is
    the sentinel of the other: a chunk whose text is exactly [[DONE]] (or
    [[ERROR]]) cannot be told from the terminal done (or error) frame. *)
Theorem render_collisions (a b : OutboundEvent) :
  render a = render b <->
  a = b \/
  (a = Token "[DONE]" /\ b = Done) \/ (a = Done /\ b = Token "[DONE]") \/
  (a = Token "[ERROR]" /\ b = Error) \/ (a = Error /\ b = Token "[ERROR]").
Proof.
  split.
  - destruct a as [x| |], b as [y| |]; cbn [render]; intro H;
      apply frame_injective in H;
      try (subst; intuition congruence); try discriminate H.
  - intros [-> | [[-> ->] | [[-> ->] | [[-> ->] | [-> ->]]]]]; reflexivity.
Qed.

Lemma render_collisions_witness :
  render (Token "[DONE]") = render Done /\
  render (Token "[ERROR]") = render Error.
Proof.
  split.
  - apply (proj2 (render_collisions (Token "[DONE]") Done)).
    right. left. split; reflexivity.
  - apply (proj2 (render_collisions (Token "[ERROR]") Error)).
    do 3 right. left. split; reflexivity.
Defined.

(** ** Further properties of src/example_wrapper.py and of both handlers *)

Lemma wprinted_app a b : wprinted (a ++ b) = wprinted a ++ wprinted b.
Proof. apply flat_map_app. Qed.

Lemma wprinted_wrapper_effects cs :
  wprinted (wrapper_effects cs)
  = flat_map (fun c => match Wrapper.usage_attr c with
                       | Some u => [("Tokens: " ++ u)%string]
                       | None => []
                       end) cs.
Proof.
  induction cs as [|c cs IH]; [reflexivity|].
  change (wrapper_effects (c :: cs))
    with ((Wrapper.WChunk c
             :: match Wrapper.usage_attr c with
                | Some u => [Wrapper.WPrint ("Tokens: " ++ u)%string]
                | None => []
                end ++ [Wrapper.WYield (Token (Wrapper.chunk_str c))])
            ++ wrapper_effects cs).
  rewrite wprinted_app, IH. cbn [flat_map].
  now destruct (Wrapper.usage_attr c).
Qed.

(** X8.  When the upstream raises after yielding k chunks, whatever the
    exception, example_wrapper.py's handler has emitted exactly the k token
    events and no terminal event, and the exception leaves the generator
    unchanged. *)
Theorem wrapper_error_propagates model payload e :
  failure (model (question payload)) = Some e ->
  fst (Wrapper.run model payload) = Raise e /\
  Wrapper.wevents (snd (Wrapper.run model payload))
  = wrapper_tokens (chunks (model (question payload))) /\
  count_if terminal (Wrapper.wevents (snd (Wrapper.run model payload)))
  = 0%nat.
Proof.
  intro Hf. rewrite wrapper_run_eq. cbv zeta. rewrite Hf.
  cbn [fst snd Wrapper.wevents flat_map].
  fold (Wrapper.wevents (wrapper_effects (chunks (model (question payload))))).
  rewrite wevents_wrapper_effects.
  repeat split. apply count_terminal_wrapper_tokens.
Qed.

Lemma wrapper_error_propagates_witness :
  fst wrapper_run_raises = Raise boom /\
  Wrapper.wevents (snd wrapper_run_raises) = [Token "partial"].
Proof.
  destruct (wrapper_error_propagates (llm_stream ["partial"] (Some boom))
              ping boom eq_refl) as (Hr & Hev & _).
  split; [exact Hr | exact Hev].
Defined.

(** X9.  example_wrapper.py's handler prints one line [Tokens: ...] for
    each chunk that has a [usage_metadata] attribute, in the order of the
    chunks, and nothing for the others, whether or not the upstream ends
    with an error; the events it emits depend on the chunks' texts only. *)
Theorem wrapper_prints_usage model payload :
  wprinted (snd (Wrapper.run model payload))
  = flat_map (fun c => match Wrapper.usage_attr c with
                       | Some u => [("Tokens: " ++ u)%string]
                       | None => []
                       end) (chunks (model (question payload))) /\
  filter is_token (Wrapper.wevents (snd (Wrapper.run model payload)))
  = map (fun c => Token (Wrapper.chunk_str c))
        (chunks (model (question payload))).
Proof.
  rewrite wrapper_run_eq. cbv zeta.
  assert (Hp : forall tail,
             wprinted (Wrapper.WOpen (question payload)
                         :: wrapper_effects (chunks (model (question payload)))
                         ++ tail)
             = wprinted (wrapper_effects (chunks (model (question payload))))
               ++ wprinted tail).
  { intro tail.
    change (Wrapper.WOpen (question payload)
              :: wrapper_effects (chunks (model (question payload))) ++ tail)
      with ([Wrapper.WOpen (question payload)]
              ++ wrapper_effects (chunks (model (question payload))) ++ tail).
    now rewrite !wprinted_app. }
  assert (He : forall tail,
             Wrapper.wevents
               (Wrapper.WOpen (question payload)
                  :: wrapper_effects (chunks (model (question payload)))
                  ++ tail)
             = wrapper_tokens (chunks (model (question payload)))
               ++ Wrapper.wevents tail).
  { intro tail.
    change (Wrapper.WOpen (question payload)
              :: wrapper_effects (chunks (model (question payload))) ++ tail)
      with ([Wrapper.WOpen (question payload)]
              ++ wrapper_effects (chunks (model (question payload))) ++ tail).
    now rewrite !wevents_app, wevents_wrapper_effects. }
  assert (Hft : forall cs, filter is_token (wrapper_tokens cs)
                           = wrapper_tokens cs).
  { induction cs as [|c cs IH]; [reflexivity|]. cbn. f_equal. exact IH. }
  destruct (failure (model (question payload))); cbn [snd].
  - rewrite <- (app_nil_r (wrapper_effects _)), Hp, He.
    cbn. rewrite !app_nil_r, wprinted_wrapper_effects. split; [reflexivity|].
    apply Hft.
  - rewrite Hp, He. cbn. rewrite app_nil_r, wprinted_wrapper_effects.
    split; [reflexivity|].
    rewrite filter_app. cbn. rewrite app_nil_r. apply Hft.
Qed.

(** X10.  The two handlers send the same events for the same texts: when
    both upstreams complete, the chunks of main.py's upstream have the
    fragments that the chunks of example_wrapper.py's upstream render to,
    and no call on the run tree raises, the two runs emit the same events,
    hence byte-identical bodies. *)
Theorem handlers_agree settings R genai_client model payload :
  reliable R ->
  failure (genai_client (VERTEX_AI_MODEL settings) (question payload)) = None ->
  failure (model (question payload)) = None ->
  map fragment (chunks (genai_client (VERTEX_AI_MODEL settings)
                                     (question payload)))
  = map Wrapper.chunk_str (chunks (model (question payload))) ->
  events (effects (snd (run settings R genai_client payload)))
  = Wrapper.wevents (snd (Wrapper.run model payload)) /\
  sse_body (events (effects (snd (run settings R genai_client payload))))
  = sse_body (Wrapper.wevents (snd (Wrapper.run model payload))).
Proof.
  intros HR Hf Hw Htexts.
  assert (Hev : events (effects (snd (run settings R genai_client payload)))
                = Wrapper.wevents (snd (Wrapper.run model payload))).
  { rewrite reliable_events by exact HR. rewrite Hf.
    rewrite wrapper_run_eq. cbv zeta. rewrite Hw. cbn [snd].
    change (Wrapper.WOpen (question payload)
              :: wrapper_effects (chunks (model (question payload)))
              ++ [Wrapper.WYield Done])
      with ([Wrapper.WOpen (question payload)]
              ++ wrapper_effects (chunks (model (question payload)))
              ++ [Wrapper.WYield Done]).
    rewrite !wevents_app, wevents_wrapper_effects. cbn [Wrapper.wevents flat_map app].
    f_equal. unfold tokens_of, wrapper_tokens.
    rewrite <- (map_map fragment Token), Htexts, map_map. reflexivity. }
  split; [exact Hev | now rewrite Hev].
Qed.

Lemma handlers_agree_witness :
  events (effects (snd (run demo_settings quiet ping_stream ping)))
  = Wrapper.wevents (snd (Wrapper.run (llm_stream ["P"; "i"; "ng"] None) ping)).
Proof.
  destruct (handlers_agree demo_settings quiet ping_stream
              (llm_stream ["P"; "i"; "ng"] None) ping quiet_reliable
              eq_refl eq_refl eq_refl) as (Hev & _).
  exact Hev.
Defined.

(** ** Further properties of src/main.py: how a run ends *)

Ltac ends_with_terminal :=
  match goal with
  | |- exists pre t, ?A ++ [?x] = _ /\ _ =>
      exists A, x; split; reflexivity
  | |- exists pre t, (?A ++ [?x]) ++ [?y] = _ /\ _ =>
      exists (A ++ [x]), y; split; reflexivity
  | |- exists pre t, [?x] = _ /\ _ =>
      exists (@nil OutboundEvent), x; split; reflexivity
  end.

(** X11.  Whatever the recorder and the upstream do: when main.py's
    generator returns normally, the last event it emitted is a terminal
    event, done or error; and an error event is only emitted as the
    generator's last act, after which it returns normally.  A stream that
    closes cleanly therefore always ends with [DONE] or [ERROR]. *)
Theorem clean_close_ends_with_terminal settings R genai_client payload :
  (fst (run settings R genai_client payload) = Ok tt ->
   exists pre t,
     events (effects (snd (run settings R genai_client payload)))
     = pre ++ [t] /\ terminal t = true) /\
  (In Error (events (effects (snd (run settings R genai_client payload)))) ->
   fst (run settings R genai_client payload) = Ok tt /\
   exists pre,
     events (effects (snd (run settings R genai_client payload)))
     = pre ++ [Error]).
Proof.
  split_run; observe; split.
  all: try (intro H; discriminate H).
  all: try (intros _; rewrite ?app_nil_r; cbn [app]; ends_with_terminal).
  all: try (intro H; exfalso; rewrite ?app_nil_r in H; cbn [app] in H;
            repeat (apply in_app_or in H; destruct H as [H|H]);
            try (apply in_map_iff in H; destruct H as (? & H & _));
            cbn [In] in H; intuition discriminate).
  all: intros _; split; [reflexivity|];
    rewrite ?app_nil_r; cbn [app];
    match goal with
    | |- exists pre, ?A ++ [Error] = _ => exists A; reflexivity
    | |- exists pre, [Error] = _ => exists (@nil OutboundEvent); reflexivity
    end.
Qed.

Lemma clean_close_ends_with_terminal_witness :
  (exists pre t,
      events (effects (snd (run demo_settings quiet (partial_stream boom) ping)))
      = pre ++ [t] /\ terminal t = true) /\
  fst run_end_raises = Ok tt.
Proof.
  split.
  - exact (proj1 (clean_close_ends_with_terminal demo_settings quiet
                    (partial_stream boom) ping) eq_refl).
  - destruct (proj2 (clean_close_ends_with_terminal demo_settings
                       (raising_at is_end_outputs boom) ping_stream ping))
      as (Hr & _).
    + cbn. do 4 right. left. reflexivity.
    + exact Hr.
Defined.

(** ** The application state: lines 39-47 and line 99 of src/main.py *)


Lemma run_app_fresh settings R payload :
  run_app settings R fresh_app payload =
  match R [] (RunTree_init (question payload) (VERTEX_AI_MODEL settings)) with
  | Some e =>
      (Raise e,
       emit [ETrace (RunTree_init (question payload)
                                  (VERTEX_AI_MODEL settings))] init_state)
  | None =>
      match R [RunTree_init (question payload) (VERTEX_AI_MODEL settings)]
              rt_post with
      | Some e => (Raise e, started settings payload)
      | None => (Raise attribute_error, started settings payload)
      end
  end.
Proof.
  unfold run_app, generate_app. unfold bind at 1. rewrite rt_eq.
  cbn [effects init_state trace_calls flat_map app].
  destruct (R [] (RunTree_init (question payload) (VERTEX_AI_MODEL settings)));
    [reflexivity|].
  unfold bind at 1. rewrite rt_eq.
  cbn [effects trace_calls flat_map app full_content input_tokens
       output_tokens first_token].
  destruct (R [RunTree_init (question payload) (VERTEX_AI_MODEL settings)]
              rt_post); reflexivity.
Qed.

(** X12.  When [app.state] holds no client (the lifespan has not stored
    one), main.py's generator raises at line 99, after the run tree was
    created and posted and outside the [try]: whatever the recorder does,
    no event is emitted, the upstream is not called, nothing is printed and
    the trace is neither ended nor patched; once the trace was started, the
    exception that leaves the generator is the attribute error and the only
    calls on the run tree are its construction and [rt.post()]. *)
Theorem missing_client_aborts settings R payload :
  events (effects (snd (run_app settings R fresh_app payload))) = [] /\
  opened (effects (snd (run_app settings R fresh_app payload))) = [] /\
  printed (effects (snd (run_app settings R fresh_app payload))) = [] /\
  count_if is_end
    (trace_calls (effects (snd (run_app settings R fresh_app payload))))
  = 0%nat /\
  count_if is_patch
    (trace_calls (effects (snd (run_app settings R fresh_app payload))))
  = 0%nat /\
  (exists e, fst (run_app settings R fresh_app payload) = Raise e) /\
  (trace_started settings R payload = true ->
   fst (run_app settings R fresh_app payload) = Raise attribute_error /\
   trace_calls (effects (snd (run_app settings R fresh_app payload)))
   = [RunTree_init (question payload) (VERTEX_AI_MODEL settings); rt_post]).
Proof.
  unfold trace_started. rewrite run_app_fresh.
  destruct (R [] (RunTree_init (question payload) (VERTEX_AI_MODEL settings)))
    as [e|];
    [|destruct (R [RunTree_init (question payload) (VERTEX_AI_MODEL settings)]
                  rt_post) as [e|]];
    cbn; do 5 (split; [reflexivity|]).
  - split; [now exists e | discriminate].
  - split; [now exists e | discriminate].
  - split; [now exists attribute_error | intros _; split; reflexivity].
Qed.

Lemma missing_client_aborts_witness :
  fst (run_app demo_settings quiet fresh_app ping) = Raise attribute_error /\
  trace_calls (effects (snd (run_app demo_settings quiet fresh_app ping)))
  = [RunTree_init "ping" "gemini"; rt_post].
Proof.
  destruct (missing_client_aborts demo_settings quiet ping)
    as (_ & _ & _ & _ & _ & _ & H).
  exact (H eq_refl).
Defined.


